(** * xeokit: the batching occlusion renderer and the Ortho projection

    A shallow embedding of [BatchingOcclusionRenderer] (draw orchestration of
    one batching layer) and of the [Ortho] camera projection, both found in
    [src/scene/camera/Ortho.js], together with the properties the
    specification states about them.

    JavaScript objects become records, [null]/[undefined] become [None],
    the calls made on the WebGL context become a list of [GLCall] events, and
    a [TypeError] raised by a property access on [undefined] becomes the
    [Throw] completion of a small state/trace/exception monad. *)

From Stdlib Require Import List String ZArith Bool Arith Lia DecimalString
  DecimalNat.
From Stdlib Require SpecFloat.
Import ListNotations.
Local Open Scope list_scope.

(** ** Handles owned by the WebGL wrapper classes *)

(** A [WebGLUniformLocation]; [program.getLocation] yields [null] for a
    uniform the shader does not have. *)
Definition UniformLocation : Type := nat.

(** The attribute wrapper returned by [program.getAttribute]; [undefined]
    for an attribute the shader does not declare. *)
Definition Attribute : Type := nat.

(** An array buffer of a batching layer. *)
Definition ArrayBuf : Type := nat.

(** The index buffer of a batching layer, with the two fields [drawLayer]
    reads from it. *)
Record IndicesBuf : Type := mkIndicesBuf {
  indicesHandle : nat;
  numItems : nat;
  itemType : nat
}.

(** [webgl/Program.js] is not among the sources.  A [Program.t] is what
    [new Program(gl, shaderSource)] hands to the renderer: its id, its
    [errors] field ([null] when the shaders compiled and linked) and its two
    lookup methods. *)
Module Program.

Record t : Type := mk {
  id : nat;
  errors : option (list string);
  getLocation : string -> option UniformLocation;
  getAttribute : string -> option Attribute
}.

End Program.

(** ["name" + i] for a loop index [i]. *)
Definition indexed (name : string) (i : nat) : string :=
  (name ++ NilEmpty.string_of_uint (Nat.to_uint i))%string.

(** The three uniform locations kept per section plane. *)
Record SectionPlaneUniforms : Type := mkSectionPlaneUniforms {
  uActive : option UniformLocation;
  uPos : option UniformLocation;
  uDir : option UniformLocation
}.

(** The fields of a [BatchingOcclusionRenderer] instance.  [_hash] is the
    value of [getHash()], modelled below as a pair of natural numbers. *)
Record Renderer : Type := mkRenderer {
  _hash : nat * nat;
  _program : option Program.t;
  errors : option (list string);
  _uPositionsDecodeMatrix : option UniformLocation;
  _uViewMatrix : option UniformLocation;
  _uProjMatrix : option UniformLocation;
  _uSectionPlanes : option (list SectionPlaneUniforms);
  _aPosition : option Attribute;
  _aOffset : option Attribute;
  _aColor : option Attribute;
  _aFlags : option Attribute;
  _aFlags2 : option Attribute
}.

(** JavaScript completions: a call returns, or throws. *)
Inductive JsError : Type := TypeError.

Inductive completion (A : Type) : Type :=
| Normal (a : A)
| Throw (e : JsError).
Arguments Normal {A} a.
Arguments Throw {A} e.

(** The part of [math/] the renderer relies on.  [math/math.js] and
    [math/rtcCoords.js] are not among the sources, and the renderer only
    passes the values of their functions on, so they form an interface:
    the numbers held in vectors, the 4x4 matrices, the test
    [math.compareVec3] applies to each pair of components, and the two RTC
    helpers ([getPlaneRTCPos] returns the vector it was given to fill). *)
Class Math : Type := mkMath {
  num : Type;
  mat4 : Type;
  numEq : num -> num -> bool;
  createRTCViewMat : mat4 -> num * num * num -> mat4;
  getPlaneRTCPos : num -> num * num * num -> num * num * num -> num * num * num
}.

Section BatchingOcclusionRenderer.

Context {math : Math}.

Definition vec3 : Type := (num * num * num)%type.

(** Modelled from the spec: [math.compareVec3] ([math/math.js]) is missing
    from the sources.  The spec describes it as a component-wise comparison
    of two vectors by value, not by reference, and leaves the test applied
    to each component (exact or with a tolerance) open: that test is
    [numEq]. *)
Definition compareVec3 (v1 v2 : vec3) : bool :=
  let '(x1, y1, z1) := v1 in
  let '(x2, y2, z2) := v2 in
  numEq x1 x2 && numEq y1 y2 && numEq z1 z2.

(** ** Scene data read by the renderer *)

Record SectionPlane : Type := mkSectionPlane {
  pos : vec3;
  dir : vec3;
  dist : num
}.

(** The section planes of the scene, in insertion order, and the part of
    their configuration that is relevant to their identity, which the spec
    does not detail: it is kept as an opaque number. *)
Record SectionPlanesState : Type := mkSectionPlanesState {
  sectionPlanes : list SectionPlane;
  planesIdentity : nat
}.

(** Modelled from the spec: [SectionPlanesState.getHash] is missing from the
    sources.  The spec describes the hash as a structural signature of the
    section-plane collection, made of the number of planes and of their
    identity, that changes when either changes; it is modelled as the pair
    of the two. *)
Definition getHash (s : SectionPlanesState) : nat * nat :=
  (List.length (sectionPlanes s), planesIdentity s).

(** [a === b] on two hashes. *)
Definition hashEqb (a b : nat * nat) : bool :=
  Nat.eqb (fst a) (fst b) && Nat.eqb (snd a) (snd b).

(** Modelled from the spec: adding and removing a section plane are
    operations of the scene that are missing from the sources.  The planes
    form an ordered sequence; a new plane is appended, and a plane is
    removed at its position. *)
Definition addSectionPlane (p : SectionPlane) (s : SectionPlanesState)
  : SectionPlanesState :=
  mkSectionPlanesState (sectionPlanes s ++ [p]) (planesIdentity s).

Fixpoint removeAt {A : Type} (i : nat) (l : list A) : list A :=
  match l, i with
  | [], _ => []
  | _ :: t, O => t
  | x :: t, S j => x :: removeAt j t
  end.

Definition removeSectionPlane (i : nat) (s : SectionPlanesState)
  : SectionPlanesState :=
  mkSectionPlanesState (removeAt i (sectionPlanes s)) (planesIdentity s).

(** The scene: [scene._sectionPlanesState] and
    [scene.camera._project._state.matrix]. *)
Record Scene : Type := mkScene {
  _sectionPlanesState : SectionPlanesState;
  projMatrix : mat4
}.

(** [batchingLayer._state]. *)
Record BatchingLayerState : Type := mkBatchingLayerState {
  positionsBuf : ArrayBuf;
  offsetsBuf : ArrayBuf;
  colorsBuf : ArrayBuf;
  flagsBuf : ArrayBuf;
  flags2Buf : ArrayBuf;
  indicesBuf : IndicesBuf;
  primitive : nat;
  positionsDecodeMatrix : mat4;
  rtcCenter : option vec3
}.

(** [batchingLayer.model]: its view matrix and its render flags. *)
Record Model : Type := mkModel {
  viewMatrix : mat4;
  sectionPlanesActivePerLayer : list bool
}.

Record BatchingLayer : Type := mkBatchingLayer {
  model : Model;
  _state : BatchingLayerState;
  layerIndex : nat
}.

(** The per-frame scratch object shared by all draws of a frame. *)
Record FrameCtx : Type := mkFrameCtx {
  lastProgramId : option nat;
  lastRTCCenter : option vec3
}.

(** ** Calls observed on the GPU side *)

Inductive GLCall : Type :=
| ProgramBind (programId : nat)
| UniformMatrix4fv (loc : option UniformLocation) (transpose : bool) (m : mat4)
| Uniform1i (loc : option UniformLocation) (v : Z)
| Uniform3fv (loc : option UniformLocation) (v : vec3)
| BindArrayBuffer (a : Attribute) (buf : ArrayBuf)
| IndicesBind (buf : IndicesBuf)
| ProgramDestroy (programId : nat)
| DrawElements (mode : nat) (count : nat) (type : nat) (offset : nat).

(** ** The monad of a method call

    A method runs on the renderer ([this]) and the frame context it was
    given, both mutable; it appends to the list of GL calls and either
    returns or throws.  Mutations and calls made before a throw persist. *)

Record St : Type := mkSt {
  this : Renderer;
  frameCtx : FrameCtx
}.

Definition M (A : Type) : Type := St -> completion A * St * list GLCall.

Definition ret {A : Type} (a : A) : M A := fun s => (Normal a, s, []).

Definition bind {A B : Type} (m : M A) (f : A -> M B) : M B :=
  fun s =>
    match m s with
    | (Normal a, s1, t1) =>
        match f a s1 with
        | (c, s2, t2) => (c, s2, t1 ++ t2)
        end
    | (Throw e, s1, t1) => (Throw e, s1, t1)
    end.

Definition throw {A : Type} (e : JsError) : M A := fun s => (Throw e, s, []).

Definition gl (c : GLCall) : M unit := fun s => (Normal tt, s, [c]).

Definition getThis : M Renderer := fun s => (Normal (this s), s, []).

Definition getFrameCtx : M FrameCtx := fun s => (Normal (frameCtx s), s, []).

Definition modifyThis (f : Renderer -> Renderer) : M unit :=
  fun s => (Normal tt, mkSt (f (this s)) (frameCtx s), []).

Definition modifyFrameCtx (f : FrameCtx -> FrameCtx) : M unit :=
  fun s => (Normal tt, mkSt (this s) (f (frameCtx s)), []).

(** Reading a property of, or calling a method on, a value that may be
    [undefined] or [null]. *)
Definition deref {A : Type} (o : option A) : M A :=
  match o with
  | Some a => ret a
  | None => throw TypeError
  end.

Notation "x <- m ;; k" := (bind m (fun x => k))
  (at level 61, m at next level, right associativity).
Notation "m ;; k" := (bind m (fun _ => k))
  (at level 61, right associativity).

Definition completionOf {A : Type} (r : completion A * St * list GLCall)
  : completion A := fst (fst r).
Definition stateOf {A : Type} (r : completion A * St * list GLCall)
  : St := snd (fst r).
Definition callsOf {A : Type} (r : completion A * St * list GLCall)
  : list GLCall := snd r.

(** ** The renderer *)

Definition setProgram (p : option Program.t) (r : Renderer) : Renderer :=
  mkRenderer (_hash r) p (errors r) (_uPositionsDecodeMatrix r)
    (_uViewMatrix r) (_uProjMatrix r) (_uSectionPlanes r) (_aPosition r)
    (_aOffset r) (_aColor r) (_aFlags r) (_aFlags2 r).

Definition setErrors (e : option (list string)) (r : Renderer) : Renderer :=
  mkRenderer (_hash r) (_program r) e (_uPositionsDecodeMatrix r)
    (_uViewMatrix r) (_uProjMatrix r) (_uSectionPlanes r) (_aPosition r)
    (_aOffset r) (_aColor r) (_aFlags r) (_aFlags2 r).

(** [_allocate()].  [compiled] is the object [new Program(gl,
    this._shaderSource)] evaluates to; [scene] is the current content of
    [this._scene].  On a compile error the method returns after setting
    [_program] and [errors], leaving every location and attribute field as
    it was. *)
Definition _allocate (scene : Scene) (compiled : Program.t) (r : Renderer)
  : Renderer :=
  let r1 := setProgram (Some compiled) r in
  match Program.errors compiled with
  | Some errs => setErrors (Some errs) r1
  | None =>
      let len := List.length (sectionPlanes (_sectionPlanesState scene)) in
      mkRenderer (_hash r1) (_program r1) (errors r1)
        (Program.getLocation compiled "positionsDecodeMatrix")
        (Program.getLocation compiled "viewMatrix")
        (Program.getLocation compiled "projMatrix")
        (Some (map (fun i =>
                 mkSectionPlaneUniforms
                   (Program.getLocation compiled (indexed "sectionPlaneActive" i))
                   (Program.getLocation compiled (indexed "sectionPlanePos" i))
                   (Program.getLocation compiled (indexed "sectionPlaneDir" i)))
               (seq 0 len)))
        (Program.getAttribute compiled "position")
        (Program.getAttribute compiled "offset")
        (Program.getAttribute compiled "color")
        (Program.getAttribute compiled "flags")
        (Program.getAttribute compiled "flags2")
  end.

(** [new BatchingOcclusionRenderer(scene)]: caches the hash, then
    allocates. *)
Definition constructor (scene : Scene) (compiled : Program.t) : Renderer :=
  _allocate scene compiled
    (mkRenderer (getHash (_sectionPlanesState scene)) None None
       None None None None None None None None None).

(** [getValid()] on the current content of the renderer's scene. *)
Definition getValid (scene : Scene) (r : Renderer) : bool :=
  hashEqb (_hash r) (getHash (_sectionPlanesState scene)).

(** [webglContextRestored()]. *)
Definition webglContextRestored (r : Renderer) : Renderer :=
  setProgram None r.

(** [destroy()]. *)
Definition destroy : M unit :=
  r <- getThis ;;
  match _program r with
  | Some p => gl (ProgramDestroy (Program.id p))
  | None => ret tt
  end ;;
  modifyThis (setProgram None).

(** [frameCtx.lastProgramId !== this._program.id]; the frame context starts
    a frame with no program id. *)
Definition programIdDiffers (last : option nat) (programId : nat) : bool :=
  match last with
  | Some l => negb (Nat.eqb l programId)
  | None => true
  end.

(** [drawLayer], lines 264-268: bind the program unless the frame context
    says it is bound already.  Returns [loadSectionPlanes]. *)
Definition drawLayer_bindProgram : M bool :=
  r <- getThis ;;
  fc <- getFrameCtx ;;
  program <- deref (_program r) ;;
  if programIdDiffers (lastProgramId fc) (Program.id program) then
    modifyFrameCtx (fun fc =>
      mkFrameCtx (Some (Program.id program)) (lastRTCCenter fc)) ;;
    gl (ProgramBind (Program.id program)) ;;
    ret true
  else ret false.

(** Lines 270-272: the view and projection matrix uniforms. *)
Definition drawLayer_matrices (scene : Scene) (layer : BatchingLayer)
  : M unit :=
  r <- getThis ;;
  let viewMat :=
    match rtcCenter (_state layer) with
    | Some c => createRTCViewMat (viewMatrix (model layer)) c
    | None => viewMatrix (model layer)
    end in
  gl (UniformMatrix4fv (_uViewMatrix r) false viewMat) ;;
  gl (UniformMatrix4fv (_uProjMatrix r) false (projMatrix scene)).

(** Lines 274-287: track the RTC center in the frame context.  Returns
    whether the section planes must be loaded because of it. *)
Definition drawLayer_trackRTCCenter (layer : BatchingLayer) : M bool :=
  fc <- getFrameCtx ;;
  match rtcCenter (_state layer) with
  | Some c =>
      match lastRTCCenter fc with
      | Some last =>
          if negb (compareVec3 c last) then
            modifyFrameCtx (fun fc => mkFrameCtx (lastProgramId fc) (Some c)) ;;
            ret true
          else ret false
      | None =>
          modifyFrameCtx (fun fc => mkFrameCtx (lastProgramId fc) (Some c)) ;;
          ret true
      end
  | None =>
      match lastRTCCenter fc with
      | Some _ =>
          modifyFrameCtx (fun fc => mkFrameCtx (lastProgramId fc) None) ;;
          ret true
      | None => ret false
      end
  end.

(** The body of the [for] loop of lines 295-309, for plane
    [sectionPlaneIndex].  An index outside [sectionPlanesActivePerLayer]
    reads [undefined], which is falsy. *)
Definition drawLayer_sectionPlane (scene : Scene) (layer : BatchingLayer)
    (baseIndex sectionPlaneIndex : nat) : M unit :=
  r <- getThis ;;
  table <- deref (_uSectionPlanes r) ;;
  sectionPlaneUniforms <- deref (nth_error table sectionPlaneIndex) ;;
  let active :=
    nth (baseIndex + sectionPlaneIndex)
        (sectionPlanesActivePerLayer (model layer)) false in
  gl (Uniform1i (uActive sectionPlaneUniforms) (if active then 1%Z else 0%Z)) ;;
  if active then
    sectionPlane <-
      deref (nth_error (sectionPlanes (_sectionPlanesState scene))
                       sectionPlaneIndex) ;;
    match rtcCenter (_state layer) with
    | Some c =>
        gl (Uniform3fv (uPos sectionPlaneUniforms)
              (getPlaneRTCPos (dist sectionPlane) (dir sectionPlane) c))
    | None =>
        gl (Uniform3fv (uPos sectionPlaneUniforms) (pos sectionPlane))
    end ;;
    gl (Uniform3fv (uDir sectionPlaneUniforms) (dir sectionPlane))
  else ret tt.

(** The [for] loop itself: [remaining] iterations starting at
    [sectionPlaneIndex]. *)
Fixpoint drawLayer_sectionPlanesLoop (scene : Scene) (layer : BatchingLayer)
    (baseIndex remaining sectionPlaneIndex : nat) : M unit :=
  match remaining with
  | O => ret tt
  | S k =>
      drawLayer_sectionPlane scene layer baseIndex sectionPlaneIndex ;;
      drawLayer_sectionPlanesLoop scene layer baseIndex k (S sectionPlaneIndex)
  end.

(** Lines 289-311. *)
Definition drawLayer_loadSectionPlanes (scene : Scene) (layer : BatchingLayer)
    (loadSectionPlanes : bool) : M unit :=
  if loadSectionPlanes then
    let numSectionPlanes :=
      List.length (sectionPlanes (_sectionPlanesState scene)) in
    if Nat.ltb 0 numSectionPlanes then
      drawLayer_sectionPlanesLoop scene layer
        (layerIndex layer * numSectionPlanes) numSectionPlanes 0
    else ret tt
  else ret tt.

(** Binding an optional attribute: [if (this._aX) { ... }]. *)
Definition bindIfPresent (a : option Attribute) (buf : ArrayBuf) : M unit :=
  match a with
  | Some h => gl (BindArrayBuffer h buf)
  | None => ret tt
  end.

(** Lines 313-333: decode matrix, attribute buffers, indices, draw. *)
Definition drawLayer_bindAndDraw (layer : BatchingLayer) : M unit :=
  let state := _state layer in
  r <- getThis ;;
  gl (UniformMatrix4fv (_uPositionsDecodeMatrix r) false
        (positionsDecodeMatrix state)) ;;
  aPosition <- deref (_aPosition r) ;;
  gl (BindArrayBuffer aPosition (positionsBuf state)) ;;
  bindIfPresent (_aOffset r) (offsetsBuf state) ;;
  bindIfPresent (_aColor r) (colorsBuf state) ;;
  aFlags <- deref (_aFlags r) ;;
  gl (BindArrayBuffer aFlags (flagsBuf state)) ;;
  bindIfPresent (_aFlags2 r) (flags2Buf state) ;;
  gl (IndicesBind (indicesBuf state)) ;;
  gl (DrawElements (primitive state) (numItems (indicesBuf state))
        (itemType (indicesBuf state)) 0).

(** Lines 262-333: what [drawLayer] does once it holds a program. *)
Definition drawLayer_body (scene : Scene) (layer : BatchingLayer) : M unit :=
  bound <- drawLayer_bindProgram ;;
  drawLayer_matrices scene layer ;;
  moved <- drawLayer_trackRTCCenter layer ;;
  drawLayer_loadSectionPlanes scene layer (bound || moved) ;;
  drawLayer_bindAndDraw layer.

(** [drawLayer(frameCtx, batchingLayer)].  The layers drawn belong to the
    renderer's scene, so [scene] stands for both [this._scene] and
    [batchingLayer.model.scene]; [compiled] is the program a [new Program]
    would produce during this call. *)
Definition drawLayer (scene : Scene) (compiled : Program.t)
    (layer : BatchingLayer) : M unit :=
  r <- getThis ;;
  match _program r with
  | None =>
      modifyThis (_allocate scene compiled) ;;
      r' <- getThis ;;
      match errors r' with
      | Some _ => ret tt
      | None => drawLayer_body scene layer
      end
  | Some _ => drawLayer_body scene layer
  end.

(** ** Vocabulary of the properties *)

(** The program [drawLayer] works with once past its allocation guard. *)
Definition programInUse (compiled : Program.t) (r : Renderer) : Program.t :=
  match _program r with
  | Some p => p
  | None => compiled
  end.

(** The renderer as it is once past the allocation guard. *)
Definition thisAfterGuard (scene : Scene) (compiled : Program.t)
    (r : Renderer) : Renderer :=
  match _program r with
  | Some _ => r
  | None => _allocate scene compiled r
  end.

(** Whether [drawLayer] leaves through the [return] of line 258. *)
Definition returnsEarly (scene : Scene) (compiled : Program.t)
    (r : Renderer) : bool :=
  match _program r with
  | Some _ => false
  | None =>
      match errors (_allocate scene compiled r) with
      | Some _ => true
      | None => false
      end
  end.

(** The layer's RTC center differs from the one the frame context holds:
    one is [null] and the other is not, or both are vectors that
    [compareVec3] tells apart. *)
Definition rtcCenterDiffers (c last : option vec3) : bool :=
  match c, last with
  | Some a, Some b => negb (compareVec3 a b)
  | None, None => false
  | _, _ => true
  end.

Definition isProgramBind (c : GLCall) : bool :=
  match c with ProgramBind _ => true | _ => false end.

Definition countProgramBinds (calls : list GLCall) : nat :=
  List.length (filter isProgramBind calls).

(** [uniform1i] and [uniform3fv] are used for the section-plane uniforms
    only. *)
Definition isSectionPlaneWrite (c : GLCall) : bool :=
  match c with Uniform1i _ _ | Uniform3fv _ _ => true | _ => false end.

Definition sectionPlaneWrites (calls : list GLCall) : list GLCall :=
  filter isSectionPlaneWrite calls.

Definition isMatrixWrite (c : GLCall) : bool :=
  match c with UniformMatrix4fv _ _ _ => true | _ => false end.

Definition matrixWrites (calls : list GLCall) : list GLCall :=
  filter isMatrixWrite calls.

Definition isAttributeBind (c : GLCall) : bool :=
  match c with BindArrayBuffer _ _ => true | _ => false end.

Definition attributeBinds (calls : list GLCall) : list GLCall :=
  filter isAttributeBind calls.

Definition isDraw (c : GLCall) : bool :=
  match c with DrawElements _ _ _ _ => true | _ => false end.

(** The call issued [gl.drawElements]. *)
Definition issuesDraw (calls : list GLCall) : bool := existsb isDraw calls.

(** What a reload writes for one plane, given its uniform locations, the
    plane and its flag in the render flags. *)
Definition planeWrites (layer : BatchingLayer) (u : SectionPlaneUniforms)
    (plane : SectionPlane) (active : bool) : list GLCall :=
  Uniform1i (uActive u) (if active then 1%Z else 0%Z) ::
  (if active then
     [ Uniform3fv (uPos u)
         (match rtcCenter (_state layer) with
          | Some c => getPlaneRTCPos (dist plane) (dir plane) c
          | None => pos plane
          end);
       Uniform3fv (uDir u) (dir plane) ]
   else []).

(** The flag of plane [i] for this layer:
    [sectionPlanesActivePerLayer[layerIndex * numSectionPlanes + i]]. *)
Definition planeActive (scene : Scene) (layer : BatchingLayer) (i : nat)
  : bool :=
  nth (layerIndex layer
         * List.length (sectionPlanes (_sectionPlanesState scene)) + i)
      (sectionPlanesActivePerLayer (model layer)) false.

(** What a reload writes in all: plane after plane, in index order. *)
Definition reloadWrites (scene : Scene) (layer : BatchingLayer)
    (table : list SectionPlaneUniforms) : list GLCall :=
  flat_map
    (fun entry : nat * SectionPlaneUniforms * SectionPlane =>
       let '(i, u, plane) := entry in
       planeWrites layer u plane (planeActive scene layer i))
    (combine
       (combine (seq 0 (List.length (sectionPlanes (_sectionPlanesState scene))))
                table)
       (sectionPlanes (_sectionPlanesState scene))).

(** The renderer's table of section-plane uniforms; empty while the
    field is still [undefined]. *)
Definition uniformTable (r : Renderer) : list SectionPlaneUniforms :=
  match _uSectionPlanes r with
  | Some table => table
  | None => []
  end.

(** The bind an optional attribute contributes. *)
Definition optionalBind (a : option Attribute) (buf : ArrayBuf)
  : list GLCall :=
  match a with
  | Some h => [BindArrayBuffer h buf]
  | None => []
  end.

(** The frame context after the program step and the RTC step. *)
Definition frameCtxAfter (p : Program.t) (layer : BatchingLayer)
    (fc : FrameCtx) : FrameCtx :=
  mkFrameCtx (Some (Program.id p))
    (if rtcCenterDiffers (rtcCenter (_state layer)) (lastRTCCenter fc)
     then rtcCenter (_state layer) else lastRTCCenter fc).

(** The scene after its section planes changed. *)
Definition withSectionPlanes (f : SectionPlanesState -> SectionPlanesState)
    (scene : Scene) : Scene :=
  mkScene (f (_sectionPlanesState scene)) (projMatrix scene).

End BatchingOcclusionRenderer.

(** ** The Ortho projection

    A JavaScript number is an IEEE 754 binary64 value: a
    [SpecFloat.spec_float] at 53 bits of precision and [emax = 1024], with
    signed zeros, the infinities and NaN.  Arithmetic is the correctly
    rounded (to nearest, ties to even) arithmetic of [SpecFloat], and the
    comparisons are its comparisons: every comparison with NaN is false,
    and the two zeros are equal. *)

Module Ortho.

Import SpecFloat.

Definition Number : Type := spec_float.

Definition prec : Z := 53.
Definition emax : Z := 1024.

Definition NaN : Number := S754_nan.

(** The number an integer literal denotes. *)
Definition ofZ (z : Z) : Number := binary_normalize prec emax z 0 false.

(** A value assigned to a property. *)
Inductive JsValue : Type :=
| JsUndefined
| JsNull
| JsNumber (n : Number).

(** [a <= b]. *)
Definition leb (a b : Number) : bool := SFleb a b.

(** [a > b]. *)
Definition gtb (a b : Number) : bool := SFltb b a.

(** [- a]. *)
Definition neg (a : Number) : Number := SFopp a.

(** [a * b]. *)
Definition mul (a b : Number) : Number := SFmul prec emax a b.

(** [a / b]. *)
Definition div (a b : Number) : Number := SFdiv prec emax a b.

(** The literals of the source: [0], [1.0], [0.5], and [0.01], [0.1]
    (a decimal literal denotes the binary64 number nearest to it, which is
    the correctly rounded quotient) and [10000.0]. *)
Definition zero : Number := ofZ 0.
Definition one : Number := ofZ 1.
Definition half : Number := binary_normalize prec emax 1 (-1) false.
Definition hundredth : Number := div (ofZ 1) (ofZ 100).
Definition tenth : Number := div (ofZ 1) (ofZ 10).
Definition tenThousand : Number := ofZ 10000.

(** The fields of an Ortho, the update flag that [_needUpdate()] raises,
    and the events fired so far. *)
Record t : Type := mk {
  _scale : Number;
  _near : Number;
  _far : Number;
  _updateScheduled : bool;
  fired : list (string * Number)
}.

(** [set scale(value)]. *)
Definition set_scale (value : JsValue) (o : t) : t :=
  let value :=
    match value with
    | JsUndefined | JsNull => one
    | JsNumber n => n
    end in
  let value := if leb value zero then hundredth else value in
  mk value (_near o) (_far o) true (fired o ++ [("scale"%string, value)]).

(** [set near(value)]. *)
Definition set_near (value : JsValue) (o : t) : t :=
  let value :=
    match value with
    | JsNumber n => n
    | JsUndefined | JsNull => tenth
    end in
  mk (_scale o) value (_far o) true (fired o ++ [("near"%string, value)]).

(** [set far(value)]. *)
Definition set_far (value : JsValue) (o : t) : t :=
  let value :=
    match value with
    | JsNumber n => n
    | JsUndefined | JsNull => tenThousand
    end in
  mk (_scale o) (_near o) value true (fired o ++ [("far"%string, value)]).

(** The configuration read by [init]. *)
Record Cfg : Type := mkCfg {
  cfg_scale : JsValue;
  cfg_near : JsValue;
  cfg_far : JsValue
}.

(** [init(cfg)]: the three setters, in order, on an object that has no
    numeric field yet. *)
Definition init (cfg : Cfg) : t :=
  set_far (cfg_far cfg)
    (set_near (cfg_near cfg)
       (set_scale (cfg_scale cfg) (mk NaN NaN NaN false []))).

(** The six planes handed to [math.orthoMat4c]. *)
Record Frustum : Type := mkFrustum {
  left : Number;
  right : Number;
  bottom : Number;
  top : Number;
  near : Number;
  far : Number
}.

(** [_update()], up to its call of [math.orthoMat4c]: [boundary] is
    [scene.viewport.boundary], whose entries 2 and 3 are the width and the
    height. *)
Definition _update (boundary : Number * Number * Number * Number) (o : t)
  : Frustum :=
  let '(_, _, boundaryWidth, boundaryHeight) := boundary in
  let scale := _scale o in
  let halfSize := mul half scale in
  let aspect := div boundaryWidth boundaryHeight in
  if gtb boundaryWidth boundaryHeight then
    mkFrustum (neg halfSize) halfSize
      (div (neg halfSize) aspect) (div halfSize aspect)
      (_near o) (_far o)
  else
    mkFrustum (mul (neg halfSize) aspect) (mul halfSize aspect)
      (neg halfSize) halfSize
      (_near o) (_far o).

(** An assignment to one of the three properties of an Ortho. *)
Inductive Assignment : Type :=
| AssignScale (value : JsValue)
| AssignNear (value : JsValue)
| AssignFar (value : JsValue).

Definition assign (o : t) (a : Assignment) : t :=
  match a with
  | AssignScale value => set_scale value o
  | AssignNear value => set_near value o
  | AssignFar value => set_far value o
  end.

(** A sequence of assignments, first to last. *)
Definition assignAll (l : list Assignment) (o : t) : t :=
  fold_left assign l o.

(** A strictly positive number: [0 < a]. *)
Definition positive (a : Number) : Prop := SFltb zero a = true.

(** Two numbers of the same value: [a === b]. *)
Definition same (a b : Number) : Prop := SFeqb a b = true.

(** A frustum with an empty extent on one axis. *)
Definition degenerate (f : Frustum) : Prop :=
  same (left f) (right f) \/ same (bottom f) (top f) \/ same (near f) (far f).

End Ortho.

(** ** Sample data

    A small instance used to run the renderer on concrete inputs: integer
    components, matrices as lists, and stand-ins for the two RTC helpers
    (the view matrix remembers the center it was made relative to). *)

Module Sample.

Definition zMath : Math :=
  mkMath Z (list Z) Z.eqb
    (fun m c => let '(x, y, z) := c in m ++ [x; y; z])
    (fun d n c =>
       let '(nx, ny, nz) := n in
       let '(cx, cy, cz) := c in
       let k := (d - (nx * cx + ny * cy + nz * cz))%Z in
       ((k * nx)%Z, (k * ny)%Z, (k * nz)%Z)).

#[local] Existing Instance zMath.

(** A number for a uniform name, computed from its characters. *)
Fixpoint nameCodeFrom (acc : nat) (name : string) : nat :=
  match name with
  | EmptyString => acc
  | String c rest =>
      nameCodeFrom ((acc * 3 + Ascii.nat_of_ascii c) mod 1009) rest
  end.

Definition nameCode (name : string) : nat := nameCodeFrom 0 name.

(** A program that compiled; its shader declares [position], [color] and
    [flags], and neither [offset] nor [flags2]. *)
Definition compiledProgram (id : nat) : Program.t :=
  Program.mk id None
    (fun name => Some (nameCode name))
    (fun name =>
       if String.eqb name "position" then Some 0
       else if String.eqb name "color" then Some 2
       else if String.eqb name "flags" then Some 3
       else None).

(** A program whose shaders were rejected. *)
Definition failedProgram (id : nat) : Program.t :=
  Program.mk id (Some ["Vertex shader failed to allocate"%string])
    (fun _ => None) (fun _ => None).

Definition planeX : SectionPlane := mkSectionPlane (5, 0, 0)%Z (1, 0, 0)%Z 5%Z.
Definition planeY : SectionPlane := mkSectionPlane (0, 2, 0)%Z (0, 1, 0)%Z 2%Z.

Definition sceneWith (planes : list SectionPlane) : Scene :=
  mkScene (mkSectionPlanesState planes 0) [1; 0; 0; 1]%Z.

Definition layerState (center : option vec3) : BatchingLayerState :=
  mkBatchingLayerState 10 11 12 13 14 (mkIndicesBuf 15 36 23) 4
    [2; 0; 0; 2]%Z center.

Definition layerAt (index : nat) (center : option vec3) (flags : list bool)
  : BatchingLayer :=
  mkBatchingLayer (mkModel [3; 0; 0; 3]%Z flags) (layerState center) index.

Definition freshFrame : FrameCtx := mkFrameCtx None None.

(** A scene with two section planes, a renderer constructed for it, and
    two layers of one model that share an RTC center: plane 0 is active
    and plane 1 inactive for layer 0, both are active for layer 1. *)
Definition scene2 : Scene := sceneWith [planeX; planeY].

Definition renderer2 : Renderer := constructor scene2 (compiledProgram 1).

Definition flags2x2 : list bool := [true; false; true; true].

Definition layerA : BatchingLayer := layerAt 0 (Some (10, 0, 0)%Z) flags2x2.

Definition layerB : BatchingLayer := layerAt 1 (Some (10, 0, 0)%Z) flags2x2.

Definition start2 : St := mkSt renderer2 freshFrame.

(** The first draw of a frame, and the draw that follows it. *)
Definition drawA : completion unit * St * list GLCall :=
  drawLayer scene2 (compiledProgram 9) layerA start2.

Definition drawB : completion unit * St * list GLCall :=
  drawLayer scene2 (compiledProgram 9) layerB (stateOf drawA).

(** A scene without section planes and a layer in world space. *)
Definition scene0 : Scene := sceneWith [].

Definition layerW : BatchingLayer := layerAt 0 None [].

(** A renderer constructed with a program that compiled, after the GL
    context was restored. *)
Definition restored0 : Renderer :=
  webglContextRestored (constructor scene0 (compiledProgram 1)).

(** The two-plane scene after a third plane was added, and [renderer2]
    reallocated in place for it: the GL context is restored, then a layer
    is drawn, which compiles program 7. *)
Definition scene3 : Scene := withSectionPlanes (addSectionPlane planeX) scene2.

Definition reallocated2 : completion unit * St * list GLCall :=
  drawLayer scene3 (compiledProgram 7) layerA
    (mkSt (webglContextRestored renderer2) freshFrame).

(** A renderer constructed when the scene had one plane only. *)
Definition scene1 : Scene := sceneWith [planeX].

Definition renderer1 : Renderer := constructor scene1 (compiledProgram 1).

(** The renderer of [restored0] after a [drawLayer] whose compilation
    failed, and after the GL context was restored once more. *)
Definition failedOnce : St :=
  stateOf (drawLayer scene0 (failedProgram 2) layerW (mkSt restored0 freshFrame)).

Definition recovering : St :=
  mkSt (webglContextRestored (this failedOnce)) freshFrame.

End Sample.

(** The same kind of data over numbers that include NaN ([None]), which
    is equal to nothing, itself included. *)

Module SampleNaN.

Definition nMath : Math :=
  mkMath (option Z) (list Z)
    (fun a b =>
       match a, b with
       | Some x, Some y => Z.eqb x y
       | _, _ => false
       end)
    (fun m _ => m)
    (fun _ _ c => c).

#[local] Existing Instance nMath.

Definition nanCenter : vec3 := (None, Some 0%Z, Some 0%Z).

Definition plane : SectionPlane :=
  mkSectionPlane (Some 5, Some 0, Some 0)%Z (Some 1, Some 0, Some 0)%Z
    (Some 5%Z).

Definition scene : Scene := mkScene (mkSectionPlanesState [plane] 0) [1]%Z.

Definition layer : BatchingLayer :=
  mkBatchingLayer (mkModel [3]%Z [true])
    (mkBatchingLayerState 10 11 12 13 14 (mkIndicesBuf 15 36 23) 4 [2]%Z
       (Some nanCenter))
    0.

Definition start : St :=
  mkSt (constructor scene (Sample.compiledProgram 1)) (mkFrameCtx None None).

End SampleNaN.

(** * Properties *)

Section RendererProperties.

Context {math : Math}.

Lemma bind_run {A B : Type} (m : M A) (f : A -> M B) (s : St) :
  bind m f s =
  match m s with
  | (Normal a, s1, t1) =>
      match f a s1 with
      | (c, s2, t2) => (c, s2, t1 ++ t2)
      end
  | (Throw e, s1, t1) => (Throw e, s1, t1)
  end.
Proof. reflexivity. Qed.

Lemma programIdDiffers_false (last : option nat) (n : nat) :
  programIdDiffers last n = false <-> last = Some n.
Proof.
  destruct last as [l|]; simpl.
  - rewrite negb_false_iff, Nat.eqb_eq. split; congruence.
  - split; discriminate.
Qed.

Lemma drawLayer_bindProgram_run (s : St) (p : Program.t) :
  _program (this s) = Some p ->
  drawLayer_bindProgram s =
  (Normal (programIdDiffers (lastProgramId (frameCtx s)) (Program.id p)),
   mkSt (this s)
     (mkFrameCtx (Some (Program.id p)) (lastRTCCenter (frameCtx s))),
   if programIdDiffers (lastProgramId (frameCtx s)) (Program.id p)
   then [ProgramBind (Program.id p)] else []).
Proof.
  intros Hp. destruct s as [r [lp lc]]. simpl in *.
  unfold drawLayer_bindProgram, bind, getThis, getFrameCtx. simpl.
  rewrite Hp. simpl.
  destruct (programIdDiffers lp (Program.id p)) eqn:E; simpl.
  - reflexivity.
  - apply programIdDiffers_false in E. subst lp. reflexivity.
Qed.

Lemma drawLayer_trackRTCCenter_run (layer : BatchingLayer) (s : St) :
  drawLayer_trackRTCCenter layer s =
  (Normal (rtcCenterDiffers (rtcCenter (_state layer))
             (lastRTCCenter (frameCtx s))),
   mkSt (this s)
     (mkFrameCtx (lastProgramId (frameCtx s))
        (if rtcCenterDiffers (rtcCenter (_state layer))
              (lastRTCCenter (frameCtx s))
         then rtcCenter (_state layer) else lastRTCCenter (frameCtx s))),
   []).
Proof.
  destruct s as [r [lp lc]]. unfold drawLayer_trackRTCCenter, bind, getFrameCtx.
  simpl. destruct (rtcCenter (_state layer)) as [c|], lc as [l|]; simpl;
    try reflexivity.
  destruct (compareVec3 c l); reflexivity.
Qed.

Lemma drawLayer_matrices_run (scene : Scene) (layer : BatchingLayer) (s : St) :
  drawLayer_matrices scene layer s =
  (Normal tt, s,
   [ UniformMatrix4fv (_uViewMatrix (this s)) false
       (match rtcCenter (_state layer) with
        | Some c => createRTCViewMat (viewMatrix (model layer)) c
        | None => viewMatrix (model layer)
        end);
     UniformMatrix4fv (_uProjMatrix (this s)) false (projMatrix scene) ]).
Proof. reflexivity. Qed.

(** One iteration of the plane loop never touches the state and writes
    section-plane uniforms only. *)
Lemma drawLayer_sectionPlane_inv (scene : Scene) (layer : BatchingLayer)
    (base i : nat) (s : St) :
  stateOf (drawLayer_sectionPlane scene layer base i s) = s /\
  Forall (fun c => isSectionPlaneWrite c = true)
    (callsOf (drawLayer_sectionPlane scene layer base i s)).
Proof.
  unfold drawLayer_sectionPlane, bind, getThis, stateOf, callsOf. simpl.
  destruct (_uSectionPlanes (this s)) as [table|]; simpl; [|auto].
  destruct (nth_error table i) as [u|]; simpl; [|auto].
  destruct (nth (base + i) (sectionPlanesActivePerLayer (model layer)) false);
    simpl; [|auto].
  destruct (nth_error (sectionPlanes (_sectionPlanesState scene)) i) as [pl|];
    simpl; [|auto].
  destruct (rtcCenter (_state layer)); simpl; auto.
Qed.

Lemma drawLayer_sectionPlanesLoop_inv (scene : Scene) (layer : BatchingLayer)
    (base k i : nat) (s : St) :
  stateOf (drawLayer_sectionPlanesLoop scene layer base k i s) = s /\
  Forall (fun c => isSectionPlaneWrite c = true)
    (callsOf (drawLayer_sectionPlanesLoop scene layer base k i s)).
Proof.
  revert i. induction k as [|k IH]; intros i; simpl.
  - unfold stateOf, callsOf; simpl; auto.
  - rewrite bind_run.
    destruct (drawLayer_sectionPlane_inv scene layer base i s) as [Hs Hc].
    destruct (drawLayer_sectionPlane scene layer base i s) as [[c s1] t1].
    unfold stateOf, callsOf in Hs, Hc; simpl in Hs, Hc. subst s1.
    destruct c as [[]|e].
    + destruct (IH (S i)) as [Hs' Hc'].
      destruct (drawLayer_sectionPlanesLoop scene layer base k (S i) s)
        as [[c2 s2] t2].
      unfold stateOf, callsOf in *; simpl in *. split; [assumption|].
      apply Forall_app; auto.
    + unfold stateOf, callsOf; simpl; auto.
Qed.

Lemma drawLayer_loadSectionPlanes_inv (scene : Scene) (layer : BatchingLayer)
    (load : bool) (s : St) :
  stateOf (drawLayer_loadSectionPlanes scene layer load s) = s /\
  Forall (fun c => isSectionPlaneWrite c = true)
    (callsOf (drawLayer_loadSectionPlanes scene layer load s)).
Proof.
  unfold drawLayer_loadSectionPlanes.
  destruct load; [|unfold stateOf, callsOf; simpl; auto].
  destruct (Nat.ltb 0 _); [|unfold stateOf, callsOf; simpl; auto].
  apply drawLayer_sectionPlanesLoop_inv.
Qed.

Lemma drawLayer_loadSectionPlanes_skip (scene : Scene) (layer : BatchingLayer)
    (s : St) :
  drawLayer_loadSectionPlanes scene layer false s = (Normal tt, s, []).
Proof. reflexivity. Qed.

Lemma nth_error_skipn_cons {A : Type} (l : list A) (i : nat) (x : A) :
  nth_error l i = Some x -> skipn i l = x :: skipn (S i) l.
Proof.
  revert i. induction l as [|y l IH]; intros [|i] H; simpl in *;
    try discriminate.
  - congruence.
  - apply IH. assumption.
Qed.

(** One iteration, when the uniform table has an entry for the plane. *)
Lemma drawLayer_sectionPlane_run (scene : Scene) (layer : BatchingLayer)
    (base i : nat) (s : St) (u : SectionPlaneUniforms) (pl : SectionPlane) :
  nth_error (uniformTable (this s)) i = Some u ->
  nth_error (sectionPlanes (_sectionPlanesState scene)) i = Some pl ->
  drawLayer_sectionPlane scene layer base i s =
  (Normal tt, s,
   planeWrites layer u pl
     (nth (base + i) (sectionPlanesActivePerLayer (model layer)) false)).
Proof.
  intros Hu Hpl. unfold uniformTable in Hu.
  unfold drawLayer_sectionPlane, planeWrites, bind, getThis. simpl.
  destruct (_uSectionPlanes (this s)) as [table|];
    [|destruct i; discriminate].
  simpl. rewrite Hu. simpl.
  destruct (nth (base + i) (sectionPlanesActivePerLayer (model layer)) false);
    simpl; [|reflexivity].
  rewrite Hpl. simpl. destruct (rtcCenter (_state layer)); reflexivity.
Qed.

(** One iteration returns only if the table has that entry. *)
Lemma drawLayer_sectionPlane_normal (scene : Scene) (layer : BatchingLayer)
    (base i : nat) (s : St) :
  completionOf (drawLayer_sectionPlane scene layer base i s) = Normal tt ->
  exists u, nth_error (uniformTable (this s)) i = Some u.
Proof.
  unfold drawLayer_sectionPlane, uniformTable, bind, getThis, completionOf.
  simpl. destruct (_uSectionPlanes (this s)) as [table|]; simpl;
    [|discriminate].
  destruct (nth_error table i) as [u|]; simpl; [eauto | discriminate].
Qed.

(** The writes of the plane loop, when it runs to its end: the planes from
    [i] on, each with its entry of the uniform table. *)
Lemma drawLayer_sectionPlanesLoop_normal (scene : Scene)
    (layer : BatchingLayer) (s : St) (k i : nat) :
  let planes := sectionPlanes (_sectionPlanesState scene) in
  i + k = List.length planes ->
  completionOf
    (drawLayer_sectionPlanesLoop scene layer
       (layerIndex layer * List.length planes) k i s) = Normal tt ->
  k <= List.length (skipn i (uniformTable (this s))) /\
  callsOf
    (drawLayer_sectionPlanesLoop scene layer
       (layerIndex layer * List.length planes) k i s) =
  flat_map
    (fun entry : nat * SectionPlaneUniforms * SectionPlane =>
       let '(j, u, plane) := entry in
       planeWrites layer u plane (planeActive scene layer j))
    (combine (combine (seq i k) (skipn i (uniformTable (this s))))
             (skipn i planes)).
Proof.
  intros planes. revert i. induction k as [|k IH]; intros i Hlen Hn.
  - split; [lia | reflexivity].
  - change (drawLayer_sectionPlanesLoop scene layer
              (layerIndex layer * List.length planes) (S k) i s)
      with (bind (drawLayer_sectionPlane scene layer
                    (layerIndex layer * List.length planes) i)
                 (fun _ => drawLayer_sectionPlanesLoop scene layer
                    (layerIndex layer * List.length planes) k (S i)) s)
      in Hn |- *.
    rewrite bind_run in Hn |- *.
    assert (Hu : exists u, nth_error (uniformTable (this s)) i = Some u).
    { apply (drawLayer_sectionPlane_normal scene layer
               (layerIndex layer * List.length planes)).
      destruct (drawLayer_sectionPlane scene layer
                  (layerIndex layer * List.length planes) i s)
        as [[[[]|e] s1] t1]; [reflexivity | discriminate]. }
    destruct Hu as [u Eu].
    assert (Hpl : exists pl, nth_error planes i = Some pl).
    { destruct (nth_error planes i) as [pl|] eqn:E; [eauto|].
      apply nth_error_None in E. lia. }
    destruct Hpl as [pl Epl].
    rewrite (drawLayer_sectionPlane_run scene layer _ i s u pl Eu Epl)
      in Hn |- *.
    specialize (IH (S i)).
    destruct (drawLayer_sectionPlanesLoop scene layer
                (layerIndex layer * List.length planes) k (S i) s)
      as [[c2 s2] t2].
    unfold completionOf, callsOf in *. cbn [fst snd] in *.
    destruct IH as [IH1 IH2]; [lia | assumption |].
    rewrite (nth_error_skipn_cons _ _ _ Eu), (nth_error_skipn_cons _ _ _ Epl).
    split; [cbn [List.length]; lia|].
    cbn [seq combine flat_map]. rewrite IH2. reflexivity.
Qed.

Lemma drawLayer_loadSectionPlanes_normal (scene : Scene)
    (layer : BatchingLayer) (s : St) :
  completionOf (drawLayer_loadSectionPlanes scene layer true s) = Normal tt ->
  List.length (sectionPlanes (_sectionPlanesState scene))
    <= List.length (uniformTable (this s)) /\
  callsOf (drawLayer_loadSectionPlanes scene layer true s) =
  reloadWrites scene layer (uniformTable (this s)).
Proof.
  unfold drawLayer_loadSectionPlanes, reloadWrites.
  destruct (sectionPlanes (_sectionPlanesState scene)) as [|pl planes] eqn:E.
  - intros _. split; [simpl; lia | reflexivity].
  - change (Nat.ltb 0 (List.length (pl :: planes))) with true. cbv iota.
    rewrite <- E. intros Hn.
    apply (drawLayer_sectionPlanesLoop_normal scene layer s _ 0) in Hn;
      [|reflexivity].
    exact Hn.
Qed.

(** Calls that are all section-plane writes contribute to no other
    count. *)
Lemma sectionPlaneWrites_only (l : list GLCall) :
  Forall (fun c => isSectionPlaneWrite c = true) l ->
  sectionPlaneWrites l = l /\ countProgramBinds l = 0 /\
  matrixWrites l = [] /\ attributeBinds l = [] /\ issuesDraw l = false.
Proof.
  unfold sectionPlaneWrites, countProgramBinds, matrixWrites, attributeBinds,
    issuesDraw.
  induction 1 as [|c l Hc _ IH]; [repeat split; reflexivity|].
  destruct IH as (I1 & I2 & I3 & I4 & I5).
  destruct c; try discriminate; simpl; rewrite ?I1, ?I3, ?I4, ?I5;
    repeat split; auto.
Qed.

(** The last step of [drawLayer]: it reaches the draw exactly when the
    [position] and [flags] handles exist, and throws otherwise. *)
Lemma drawLayer_bindAndDraw_cases (layer : BatchingLayer) (s : St) :
  let r := drawLayer_bindAndDraw layer s in
  let st := _state layer in
  stateOf r = s /\
  countProgramBinds (callsOf r) = 0 /\
  sectionPlaneWrites (callsOf r) = [] /\
  matrixWrites (callsOf r) =
    [UniformMatrix4fv (_uPositionsDecodeMatrix (this s)) false
       (positionsDecodeMatrix st)] /\
  ((exists aPos aFl,
      _aPosition (this s) = Some aPos /\ _aFlags (this s) = Some aFl /\
      completionOf r = Normal tt /\ issuesDraw (callsOf r) = true /\
      attributeBinds (callsOf r) =
        BindArrayBuffer aPos (positionsBuf st)
        :: optionalBind (_aOffset (this s)) (offsetsBuf st)
        ++ optionalBind (_aColor (this s)) (colorsBuf st)
        ++ BindArrayBuffer aFl (flagsBuf st)
        :: optionalBind (_aFlags2 (this s)) (flags2Buf st))
   \/ (completionOf r = Throw TypeError /\ issuesDraw (callsOf r) = false)).
Proof.
  destruct s as [r fc]. cbv zeta.
  unfold drawLayer_bindAndDraw, bindIfPresent, bind, getThis, stateOf,
    callsOf, completionOf, countProgramBinds, sectionPlaneWrites,
    matrixWrites, attributeBinds, issuesDraw, optionalBind.
  simpl.
  destruct (_aPosition r) as [aPos|]; simpl.
  2:{ repeat split; auto. }
  destruct (_aOffset r), (_aColor r); simpl;
    (destruct (_aFlags r) as [aFl|]; simpl;
     [ destruct (_aFlags2 r); simpl; repeat split; auto;
       left; exists aPos, aFl; repeat split; auto
     | repeat split; auto ]).
Qed.

(** [drawLayer] is its allocation guard followed by its body. *)
Lemma drawLayer_run (scene : Scene) (compiled : Program.t)
    (layer : BatchingLayer) (s : St) :
  drawLayer scene compiled layer s =
  if returnsEarly scene compiled (this s)
  then (Normal tt, mkSt (_allocate scene compiled (this s)) (frameCtx s), [])
  else drawLayer_body scene layer
         (mkSt (thisAfterGuard scene compiled (this s)) (frameCtx s)).
Proof.
  destruct s as [r fc].
  unfold drawLayer, returnsEarly, thisAfterGuard, bind, getThis, modifyThis.
  simpl. destruct (_program r) as [p|]; simpl.
  - destruct (drawLayer_body scene layer (mkSt r fc)) as [[c s2] t2].
    reflexivity.
  - destruct (errors (_allocate scene compiled r)); simpl; [reflexivity|].
    destruct (drawLayer_body scene layer
                (mkSt (_allocate scene compiled r) fc)) as [[c s2] t2].
    reflexivity.
Qed.

Lemma thisAfterGuard_program (scene : Scene) (compiled : Program.t)
    (r : Renderer) :
  _program (thisAfterGuard scene compiled r)
  = Some (programInUse compiled r).
Proof.
  unfold thisAfterGuard, programInUse, _allocate.
  destruct (_program r) eqn:E; [assumption|].
  destruct (Program.errors compiled); reflexivity.
Qed.

(** The body, step by step. *)
Lemma drawLayer_body_run (scene : Scene) (layer : BatchingLayer) (s : St)
    (p : Program.t) :
  _program (this s) = Some p ->
  let b := programIdDiffers (lastProgramId (frameCtx s)) (Program.id p) in
  let d := rtcCenterDiffers (rtcCenter (_state layer))
             (lastRTCCenter (frameCtx s)) in
  let s2 := mkSt (this s) (frameCtxAfter p layer (frameCtx s)) in
  let pre :=
    (if b then [ProgramBind (Program.id p)] else [])
    ++ [ UniformMatrix4fv (_uViewMatrix (this s)) false
           (match rtcCenter (_state layer) with
            | Some c => createRTCViewMat (viewMatrix (model layer)) c
            | None => viewMatrix (model layer)
            end);
         UniformMatrix4fv (_uProjMatrix (this s)) false (projMatrix scene) ] in
  drawLayer_body scene layer s =
  match drawLayer_loadSectionPlanes scene layer (b || d) s2 with
  | (Normal _, _, pc) =>
      match drawLayer_bindAndDraw layer s2 with
      | (c, _, tc) => (c, s2, pre ++ pc ++ tc)
      end
  | (Throw e, _, pc) => (Throw e, s2, pre ++ pc)
  end.
Proof.
  intros Hp b d s2 pre. unfold drawLayer_body.
  rewrite bind_run, (drawLayer_bindProgram_run s p Hp).
  rewrite bind_run, drawLayer_matrices_run.
  rewrite bind_run, drawLayer_trackRTCCenter_run.
  cbn [this frameCtx lastProgramId lastRTCCenter].
  fold b d. change (mkSt (this s) _) with s2 at 1.
  rewrite bind_run.
  destruct (drawLayer_loadSectionPlanes_inv scene layer (b || d) s2)
    as [Hs _].
  destruct (drawLayer_loadSectionPlanes scene layer (b || d) s2)
    as [[c1 s3] pc].
  unfold stateOf in Hs; simpl in Hs; subst s3.
  destruct c1 as [[]|e].
  - destruct (drawLayer_bindAndDraw_cases layer s2) as [Hs _].
    destruct (drawLayer_bindAndDraw layer s2) as [[c s4] tc].
    unfold stateOf in Hs; simpl in Hs; subst s4.
    subst pre. rewrite <- !app_assoc. reflexivity.
  - subst pre. rewrite <- !app_assoc. reflexivity.
Qed.

(** The anatomy of a [drawLayer] call that passes its allocation guard:
    the final state, and the calls as [program bind] ++ [view; proj] ++
    [plane writes] ++ [decode matrix, attribute binds, draw]. *)
Lemma drawLayer_anatomy (scene : Scene) (compiled : Program.t)
    (layer : BatchingLayer) (s : St) :
  returnsEarly scene compiled (this s) = false ->
  let this' := thisAfterGuard scene compiled (this s) in
  let p := programInUse compiled (this s) in
  let b := programIdDiffers (lastProgramId (frameCtx s)) (Program.id p) in
  let d := rtcCenterDiffers (rtcCenter (_state layer))
             (lastRTCCenter (frameCtx s)) in
  let s2 := mkSt this' (frameCtxAfter p layer (frameCtx s)) in
  let r := drawLayer scene compiled layer s in
  stateOf r = s2 /\
  exists pc tc,
    callsOf r =
      (if b then [ProgramBind (Program.id p)] else [])
      ++ [ UniformMatrix4fv (_uViewMatrix this') false
             (match rtcCenter (_state layer) with
              | Some c => createRTCViewMat (viewMatrix (model layer)) c
              | None => viewMatrix (model layer)
              end);
           UniformMatrix4fv (_uProjMatrix this') false (projMatrix scene) ]
      ++ pc ++ tc /\
    Forall (fun c => isSectionPlaneWrite c = true) pc /\
    (b || d = false -> pc = []) /\
    ((completionOf r = Throw TypeError /\ tc = []) \/
     ((b || d = true ->
       List.length (sectionPlanes (_sectionPlanesState scene))
         <= List.length (uniformTable this') /\
       pc = reloadWrites scene layer (uniformTable this')) /\
      tc = callsOf (drawLayer_bindAndDraw layer s2) /\
      completionOf r = completionOf (drawLayer_bindAndDraw layer s2))).
Proof.
  intros He this' p b d s2 r. subst r.
  rewrite drawLayer_run, He.
  pose proof (thisAfterGuard_program scene compiled (this s)) as Hp.
  fold this' p in Hp |- *.
  rewrite (drawLayer_body_run scene layer (mkSt this' (frameCtx s)) p Hp).
  cbn [this frameCtx]. fold b d s2.
  destruct (drawLayer_loadSectionPlanes_inv scene layer (b || d) s2)
    as [_ Hall].
  pose proof (drawLayer_loadSectionPlanes_normal scene layer s2) as Hnorm.
  pose proof (drawLayer_loadSectionPlanes_skip scene layer s2) as Hskip.
  destruct (b || d) eqn:Ebd.
  - destruct (drawLayer_loadSectionPlanes scene layer true s2)
      as [[c1 s3] pc].
    unfold callsOf, completionOf, stateOf in *. cbn [fst snd] in *.
    destruct c1 as [[]|[]].
    + destruct (drawLayer_bindAndDraw layer s2) as [[c s4] tc].
      cbn [fst snd]. split; [reflexivity|].
      exists pc, tc. rewrite <- !app_assoc.
      split; [reflexivity|]. split; [assumption|].
      split; [discriminate|].
      right. split; [|split; reflexivity].
      intros _. apply Hnorm. reflexivity.
    + split; [reflexivity|]. exists pc, []. rewrite app_nil_r, <- !app_assoc.
      split; [reflexivity|]. split; [assumption|].
      split; [discriminate|]. left. split; reflexivity.
  - rewrite Hskip.
    destruct (drawLayer_bindAndDraw layer s2) as [[c s4] tc].
    unfold callsOf, completionOf, stateOf. cbn [fst snd].
    split; [reflexivity|]. exists [], tc. rewrite <- !app_assoc.
    split; [reflexivity|]. split; [constructor|]. split; [reflexivity|].
    right. split; [discriminate|split; reflexivity].
Qed.

(** A call that returns through the guard changes the renderer only. *)
Lemma drawLayer_early (scene : Scene) (compiled : Program.t)
    (layer : BatchingLayer) (s : St) :
  returnsEarly scene compiled (this s) = true ->
  drawLayer scene compiled layer s =
  (Normal tt, mkSt (_allocate scene compiled (this s)) (frameCtx s), []).
Proof. intros He. rewrite drawLayer_run, He. reflexivity. Qed.

(** What the calls of a [drawLayer] call that passes its guard amount to,
    kind by kind. *)
Lemma drawLayer_digest (scene : Scene) (compiled : Program.t)
    (layer : BatchingLayer) (s : St) :
  returnsEarly scene compiled (this s) = false ->
  let this' := thisAfterGuard scene compiled (this s) in
  let p := programInUse compiled (this s) in
  let b := programIdDiffers (lastProgramId (frameCtx s)) (Program.id p) in
  let d := rtcCenterDiffers (rtcCenter (_state layer))
             (lastRTCCenter (frameCtx s)) in
  let st := _state layer in
  let viewW :=
    UniformMatrix4fv (_uViewMatrix this') false
      (match rtcCenter st with
       | Some c => createRTCViewMat (viewMatrix (model layer)) c
       | None => viewMatrix (model layer)
       end) in
  let projW := UniformMatrix4fv (_uProjMatrix this') false (projMatrix scene) in
  let decodeW :=
    UniformMatrix4fv (_uPositionsDecodeMatrix this') false
      (positionsDecodeMatrix st) in
  let r := drawLayer scene compiled layer s in
  stateOf r = mkSt this' (frameCtxAfter p layer (frameCtx s)) /\
  filter isProgramBind (callsOf r)
    = (if b then [ProgramBind (Program.id p)] else []) /\
  (matrixWrites (callsOf r) = [viewW; projW] \/
   matrixWrites (callsOf r) = [viewW; projW; decodeW]) /\
  (b || d = false -> sectionPlaneWrites (callsOf r) = []) /\
  (issuesDraw (callsOf r) = true ->
   completionOf r = Normal tt /\
   sectionPlaneWrites (callsOf r)
     = (if b || d then reloadWrites scene layer (uniformTable this') else []) /\
   (b || d = true ->
    List.length (sectionPlanes (_sectionPlanesState scene))
      <= List.length (uniformTable this')) /\
   exists aPos aFl,
     _aPosition this' = Some aPos /\ _aFlags this' = Some aFl /\
     attributeBinds (callsOf r) =
       BindArrayBuffer aPos (positionsBuf st)
       :: optionalBind (_aOffset this') (offsetsBuf st)
       ++ optionalBind (_aColor this') (colorsBuf st)
       ++ BindArrayBuffer aFl (flagsBuf st)
       :: optionalBind (_aFlags2 this') (flags2Buf st)).
Proof.
  intros He this' p b d st viewW projW decodeW r.
  destruct (drawLayer_anatomy scene compiled layer s He)
    as (Hst & pc & tc & Hcalls & Hpc & Hskip & Hcases).
  fold this' p b d r in Hst, Hcalls, Hskip, Hcases.
  fold st viewW projW in Hcalls.
  destruct (sectionPlaneWrites_only pc Hpc) as (P1 & P2 & P3 & P4 & P5).
  assert (P2' : filter isProgramBind pc = []).
  { apply length_zero_iff_nil. exact P2. }
  assert (Hpre : forall f : GLCall -> bool,
             filter f (callsOf r)
             = filter f (if b then [ProgramBind (Program.id p)] else [])
               ++ filter f [viewW; projW] ++ filter f pc ++ filter f tc).
  { intros f. rewrite Hcalls, !filter_app. reflexivity. }
  assert (Hdraw : issuesDraw (callsOf r) = issuesDraw tc).
  { unfold issuesDraw. rewrite Hcalls, !existsb_app.
    fold (issuesDraw pc). rewrite P5. destruct b; reflexivity. }
  destruct (drawLayer_bindAndDraw_cases layer
              (mkSt this' (frameCtxAfter p layer (frameCtx s))))
    as (_ & T1 & T2 & T3 & T4).
  cbn [this] in T3, T4. fold st decodeW in T3, T4.
  split; [exact Hst|].
  destruct Hcases as [[Hc Htc] | (Hload & Htc & Hc)].
  - subst tc. split; [|split; [|split]].
    + rewrite Hpre, P2'. destruct b; reflexivity.
    + left. unfold matrixWrites. rewrite Hpre. fold (matrixWrites pc).
      rewrite P3. destruct b; reflexivity.
    + intros Hbd. unfold sectionPlaneWrites. rewrite Hpre.
      rewrite (Hskip Hbd). destruct b; reflexivity.
    + rewrite Hdraw. discriminate.
  - assert (T1' : filter isProgramBind tc = []).
    { rewrite Htc. apply length_zero_iff_nil. exact T1. }
    split; [|split; [|split]].
    + rewrite Hpre, P2', T1'. destruct b; reflexivity.
    + right. unfold matrixWrites. rewrite Hpre. fold (matrixWrites pc).
      rewrite P3. fold (matrixWrites tc). rewrite Htc, T3.
      destruct b; reflexivity.
    + intros Hbd. unfold sectionPlaneWrites. rewrite Hpre.
      rewrite (Hskip Hbd). fold (sectionPlaneWrites tc). rewrite Htc, T2.
      destruct b; reflexivity.
    + rewrite Hdraw, Htc. intros Hd.
      destruct T4 as [(aPos & aFl & A1 & A2 & A3 & A4 & A5) | [_ Hno]];
        [|rewrite Hno in Hd; discriminate].
      split; [rewrite Hc; exact A3|].
      split; [|split].
      * unfold sectionPlaneWrites. rewrite Hpre.
        fold (sectionPlaneWrites pc) (sectionPlaneWrites tc).
        rewrite P1, Htc, T2, app_nil_r.
        destruct (b || d) eqn:Ebd.
        -- destruct (Hload eq_refl) as [_ Hpcs]. rewrite Hpcs.
           destruct b; reflexivity.
        -- rewrite (Hskip eq_refl). destruct b; reflexivity.
      * intros Hbd. apply Hload. exact Hbd.
      * exists aPos, aFl. split; [exact A1|]. split; [exact A2|].
        unfold attributeBinds. rewrite Hpre.
        fold (attributeBinds pc) (attributeBinds tc).
        rewrite P4, Htc, A5. destruct b; reflexivity.
Qed.

Lemma returnsEarly_with_program (scene : Scene) (compiled : Program.t)
    (r : Renderer) (p : Program.t) :
  _program r = Some p ->
  returnsEarly scene compiled r = false /\
  thisAfterGuard scene compiled r = r /\
  programInUse compiled r = p.
Proof.
  intros Hp. unfold returnsEarly, thisAfterGuard, programInUse.
  rewrite Hp. auto.
Qed.

(** A call that issued a draw did not leave through the guard. *)
Lemma issuesDraw_not_early (scene : Scene) (compiled : Program.t)
    (layer : BatchingLayer) (s : St) :
  issuesDraw (callsOf (drawLayer scene compiled layer s)) = true ->
  returnsEarly scene compiled (this s) = false.
Proof.
  intros Hd. destruct (returnsEarly scene compiled (this s)) eqn:He;
    [|reflexivity].
  rewrite (drawLayer_early scene compiled layer s He) in Hd. discriminate.
Qed.

(** ** Failed compilation (C1) *)

(** The call that allocates and sees the compilation fail records the
    errors and returns without a single GL call; the failed program stays
    in [_program]. *)
Lemma drawLayer_failed_allocation_returns (scene : Scene)
    (compiled : Program.t) (layer : BatchingLayer) (s : St)
    (errs : list string) :
  _program (this s) = None ->
  Program.errors compiled = Some errs ->
  drawLayer scene compiled layer s =
  (Normal tt,
   mkSt (setErrors (Some errs) (setProgram (Some compiled) (this s)))
        (frameCtx s),
   []).
Proof.
  intros Hp He.
  assert (Ha : _allocate scene compiled (this s)
               = setErrors (Some errs) (setProgram (Some compiled) (this s))).
  { unfold _allocate. rewrite He. reflexivity. }
  rewrite drawLayer_early; [rewrite Ha; reflexivity|].
  unfold returnsEarly. rewrite Hp, Ha. reflexivity.
Qed.

(** A renderer that holds a program object, failed or not, never skips:
    its [drawLayer] always writes the two matrix uniforms at least, because
    the [errors] test sits inside the [!this._program] branch. *)
Lemma drawLayer_with_program_is_never_a_no_op (scene : Scene)
    (compiled : Program.t) (layer : BatchingLayer) (s : St) (p : Program.t) :
  _program (this s) = Some p ->
  exists viewMat,
    In (UniformMatrix4fv (_uViewMatrix (this s)) false viewMat)
       (callsOf (drawLayer scene compiled layer s)) /\
    In (UniformMatrix4fv (_uProjMatrix (this s)) false (projMatrix scene))
       (callsOf (drawLayer scene compiled layer s)).
Proof.
  intros Hp.
  destruct (returnsEarly_with_program scene compiled (this s) p Hp)
    as (He & Ht & _).
  destruct (drawLayer_anatomy scene compiled layer s He)
    as (_ & pc & tc & Hcalls & _).
  rewrite Ht in Hcalls. rewrite Hcalls. eexists.
  split; apply in_or_app; right; simpl; eauto.
Qed.

(** ** Program binding (C2) *)

(** C2.  With a renderer that holds program [p], [drawLayer] binds the
    program if and only if [frameCtx.lastProgramId] differs from [p]'s id
    when the call starts; and when a second layer is drawn right after with
    the same renderer, the two draws together bind the program at most
    once, the second draw never. *)
Theorem drawLayer_binds_program_iff_id_differs (scene : Scene)
    (compiledA compiledB : Program.t) (layerA layerB : BatchingLayer)
    (s : St) (p : Program.t) :
  _program (this s) = Some p ->
  let rA := drawLayer scene compiledA layerA s in
  let rB := drawLayer scene compiledB layerB (stateOf rA) in
  (In (ProgramBind (Program.id p)) (callsOf rA)
   <-> lastProgramId (frameCtx s) <> Some (Program.id p)) /\
  countProgramBinds (callsOf rA)
    = (if programIdDiffers (lastProgramId (frameCtx s)) (Program.id p)
       then 1 else 0) /\
  countProgramBinds (callsOf rB) = 0 /\
  countProgramBinds (callsOf rA ++ callsOf rB) <= 1.
Proof.
  intros Hp rA rB.
  destruct (returnsEarly_with_program scene compiledA (this s) p Hp)
    as (He & Ht & Hu).
  destruct (drawLayer_digest scene compiledA layerA s He) as (Hst & Hb & _).
  fold rA in Hst, Hb. rewrite Ht, Hu in Hst. rewrite Hu in Hb.
  assert (HpA : _program (this (stateOf rA)) = Some p)
    by (rewrite Hst; exact Hp).
  destruct (returnsEarly_with_program scene compiledB _ p HpA)
    as (He' & _ & Hu').
  destruct (drawLayer_digest scene compiledB layerB (stateOf rA) He')
    as (_ & Hb' & _).
  fold rB in Hb'. rewrite Hu' in Hb'.
  assert (Hlast : lastProgramId (frameCtx (stateOf rA)) = Some (Program.id p))
    by (rewrite Hst; reflexivity).
  rewrite Hlast in Hb'. simpl in Hb'. rewrite Nat.eqb_refl in Hb'.
  simpl in Hb'.
  assert (HcA : countProgramBinds (callsOf rA)
                = if programIdDiffers (lastProgramId (frameCtx s))
                       (Program.id p) then 1 else 0).
  { unfold countProgramBinds. rewrite Hb.
    destruct (programIdDiffers _ _); reflexivity. }
  assert (HcB : countProgramBinds (callsOf rB) = 0)
    by (unfold countProgramBinds; rewrite Hb'; reflexivity).
  split; [|split; [exact HcA | split; [exact HcB|]]].
  - split.
    + intros Hin Hlp.
      assert (Hf : In (ProgramBind (Program.id p))
                     (filter isProgramBind (callsOf rA)))
        by (apply filter_In; auto).
      rewrite Hb in Hf.
      apply programIdDiffers_false in Hlp. rewrite Hlp in Hf. exact Hf.
    + intros Hne.
      destruct (programIdDiffers (lastProgramId (frameCtx s)) (Program.id p))
        eqn:E.
      * assert (Hf : In (ProgramBind (Program.id p))
                       (filter isProgramBind (callsOf rA)))
          by (rewrite Hb; simpl; auto).
        apply filter_In in Hf. tauto.
      * apply programIdDiffers_false in E. contradiction.
  - unfold countProgramBinds in *. rewrite filter_app, length_app.
    rewrite HcA, HcB. destruct (programIdDiffers _ _); lia.
Qed.

(** ** Section-plane uniforms (C3, C7) *)

(** A reload over at least one plane writes something. *)
Lemma reloadWrites_nonempty (scene : Scene) (layer : BatchingLayer)
    (table : list SectionPlaneUniforms) :
  sectionPlanes (_sectionPlanesState scene) <> [] ->
  List.length (sectionPlanes (_sectionPlanesState scene))
    <= List.length table ->
  reloadWrites scene layer table <> [].
Proof.
  unfold reloadWrites.
  destruct (sectionPlanes (_sectionPlanesState scene)) as [|pl planes];
    [congruence|].
  destruct table as [|u table]; simpl; [lia | discriminate].
Qed.

(** C3.  The section-plane uniforms are reloaded exactly when the program
    was bound in this call or the layer's RTC center differs from
    [frameCtx.lastRTCCenter] (by [compareVec3], or because one of the two is
    null): otherwise the call writes no section-plane uniform at all, and a
    call that reaches its draw writes the full reload in the first case and
    nothing in the second; with at least one plane in the scene, such a
    call writes section-plane uniforms if and only if the condition
    holds. *)
Theorem drawLayer_reloads_section_planes_iff (scene : Scene)
    (compiled : Program.t) (layer : BatchingLayer) (s : St) :
  let p := programInUse compiled (this s) in
  let bound := programIdDiffers (lastProgramId (frameCtx s)) (Program.id p) in
  let moved := rtcCenterDiffers (rtcCenter (_state layer))
                 (lastRTCCenter (frameCtx s)) in
  let r := drawLayer scene compiled layer s in
  (bound || moved = false -> sectionPlaneWrites (callsOf r) = []) /\
  (issuesDraw (callsOf r) = true ->
   sectionPlaneWrites (callsOf r)
     = (if bound || moved
        then reloadWrites scene layer (uniformTable (this (stateOf r)))
        else []) /\
   (sectionPlanes (_sectionPlanesState scene) <> [] ->
    (sectionPlaneWrites (callsOf r) <> [] <-> bound || moved = true))).
Proof.
  intros p bound moved r. split.
  - intros Hbm. destruct (returnsEarly scene compiled (this s)) eqn:He.
    + subst r. rewrite (drawLayer_early scene compiled layer s He).
      reflexivity.
    + destruct (drawLayer_digest scene compiled layer s He)
        as (_ & _ & _ & Hskip & _).
      apply Hskip. exact Hbm.
  - intros Hd. pose proof (issuesDraw_not_early _ _ _ _ Hd) as He.
    destruct (drawLayer_digest scene compiled layer s He)
      as (Hst & _ & _ & _ & Hdraw).
    destruct (Hdraw Hd) as (_ & Hw & Hlen & _).
    fold p bound moved r in Hst, Hw, Hlen.
    rewrite Hst. cbn [this]. split; [exact Hw|].
    intros Hne. rewrite Hw. destruct (bound || moved) eqn:E.
    + split; [reflexivity|]. intros _.
      apply reloadWrites_nonempty; [exact Hne | apply Hlen; reflexivity].
    + split; [congruence | discriminate].
Qed.

(** C7.  When a call that reaches its draw reloads the section-plane
    uniforms, the renderer has uniform locations for every plane of the
    scene, and the section-plane writes of the call are, plane after plane
    in index order: the [active] uniform, set to 1 or 0 from
    [sectionPlanesActivePerLayer[layerIndex * numSectionPlanes + i]], and,
    for an active plane only, the position (through [getPlaneRTCPos] when
    the layer has an RTC center, the plane's own [pos] otherwise) and the
    direction.  Nothing is written to the position and direction uniforms
    of an inactive plane. *)
Theorem drawLayer_reload_writes_each_plane (scene : Scene)
    (compiled : Program.t) (layer : BatchingLayer) (s : St) :
  let p := programInUse compiled (this s) in
  let bound := programIdDiffers (lastProgramId (frameCtx s)) (Program.id p) in
  let moved := rtcCenterDiffers (rtcCenter (_state layer))
                 (lastRTCCenter (frameCtx s)) in
  let r := drawLayer scene compiled layer s in
  let planes := sectionPlanes (_sectionPlanesState scene) in
  let table := uniformTable (this (stateOf r)) in
  bound || moved = true ->
  issuesDraw (callsOf r) = true ->
  List.length planes <= List.length table /\
  sectionPlaneWrites (callsOf r) =
    flat_map
      (fun entry : nat * SectionPlaneUniforms * SectionPlane =>
         let '(i, u, plane) := entry in
         let active :=
           nth (layerIndex layer * List.length planes + i)
               (sectionPlanesActivePerLayer (model layer)) false in
         if active then
           [ Uniform1i (uActive u) 1;
             Uniform3fv (uPos u)
               (match rtcCenter (_state layer) with
                | Some c => getPlaneRTCPos (dist plane) (dir plane) c
                | None => pos plane
                end);
             Uniform3fv (uDir u) (dir plane) ]
         else [Uniform1i (uActive u) 0])
      (combine (combine (seq 0 (List.length planes)) table) planes).
Proof.
  intros p bound moved r planes table Hbm Hd.
  pose proof (issuesDraw_not_early _ _ _ _ Hd) as He.
  destruct (drawLayer_digest scene compiled layer s He)
    as (Hst & _ & _ & _ & Hdraw).
  destruct (Hdraw Hd) as (_ & Hw & Hlen & _).
  fold p bound moved r in Hst, Hw, Hlen.
  subst table. rewrite Hst. cbn [this]. split; [apply Hlen; exact Hbm|].
  rewrite Hw, Hbm. unfold reloadWrites. fold planes.
  apply flat_map_ext. intros [[i u] plane].
  unfold planeWrites, planeActive. fold planes.
  destruct (nth _ _ false); reflexivity.
Qed.

(** ** Matrices (C6) *)

(** C6.  In every [drawLayer] call that passes the allocation guard, the
    first matrix uniform written is the view matrix, with
    [createRTCViewMat(model.viewMatrix, rtcCenter)] when the layer has an
    RTC center and with [model.viewMatrix] itself when it has none; the
    second is the projection matrix, with the camera's projection matrix
    as it is; the only other matrix uniform the call may write is the
    positions decode matrix. *)
Theorem drawLayer_writes_view_and_projection_matrices (scene : Scene)
    (compiled : Program.t) (layer : BatchingLayer) (s : St) :
  returnsEarly scene compiled (this s) = false ->
  let r := drawLayer scene compiled layer s in
  let this' := this (stateOf r) in
  exists viewMat rest,
    matrixWrites (callsOf r) =
      UniformMatrix4fv (_uViewMatrix this') false viewMat
      :: UniformMatrix4fv (_uProjMatrix this') false (projMatrix scene)
      :: rest /\
    (forall c, rtcCenter (_state layer) = Some c ->
               viewMat = createRTCViewMat (viewMatrix (model layer)) c) /\
    (rtcCenter (_state layer) = None -> viewMat = viewMatrix (model layer)) /\
    (rest = [] \/
     rest = [UniformMatrix4fv (_uPositionsDecodeMatrix this') false
               (positionsDecodeMatrix (_state layer))]).
Proof.
  intros He r this'.
  destruct (drawLayer_digest scene compiled layer s He)
    as (Hst & _ & Hm & _).
  fold r in Hst, Hm. subst this'. rewrite Hst. cbn [this].
  destruct Hm as [Hm | Hm]; rewrite Hm; do 2 eexists;
    (split; [reflexivity|]);
    (split; [intros c Hc; rewrite Hc; reflexivity|]);
    (split; [intros Hc; rewrite Hc; reflexivity|]); auto.
Qed.

(** ** Attribute buffers (C8) *)

(** After a successful [_allocate], the attribute handles are the ones the
    compiled shader declares. *)
Lemma _allocate_attributes (scene : Scene) (compiled : Program.t)
    (r : Renderer) :
  Program.errors compiled = None ->
  let r' := _allocate scene compiled r in
  _aPosition r' = Program.getAttribute compiled "position" /\
  _aOffset r' = Program.getAttribute compiled "offset" /\
  _aColor r' = Program.getAttribute compiled "color" /\
  _aFlags r' = Program.getAttribute compiled "flags" /\
  _aFlags2 r' = Program.getAttribute compiled "flags2".
Proof.
  intros He. unfold _allocate. rewrite He. simpl. auto.
Qed.

(** C8.  In every [drawLayer] call that reaches the draw, the attribute
    buffers bound are exactly: the positions buffer, on the [position]
    handle; the offsets buffer if and only if the [offset] handle is
    non-null; the colors buffer if and only if the [color] handle is
    non-null; the flags buffer, on the [flags] handle; the flags2 buffer if
    and only if the [flags2] handle is non-null.  No buffer is bound for an
    attribute whose handle is null. *)
Theorem drawLayer_binds_declared_attributes (scene : Scene)
    (compiled : Program.t) (layer : BatchingLayer) (s : St) :
  let r := drawLayer scene compiled layer s in
  let this' := this (stateOf r) in
  let st := _state layer in
  issuesDraw (callsOf r) = true ->
  exists aPosition aFlags,
    _aPosition this' = Some aPosition /\
    _aFlags this' = Some aFlags /\
    attributeBinds (callsOf r) =
      [BindArrayBuffer aPosition (positionsBuf st)]
      ++ match _aOffset this' with
         | Some a => [BindArrayBuffer a (offsetsBuf st)]
         | None => []
         end
      ++ match _aColor this' with
         | Some a => [BindArrayBuffer a (colorsBuf st)]
         | None => []
         end
      ++ [BindArrayBuffer aFlags (flagsBuf st)]
      ++ match _aFlags2 this' with
         | Some a => [BindArrayBuffer a (flags2Buf st)]
         | None => []
         end.
Proof.
  intros r this' st Hd.
  pose proof (issuesDraw_not_early _ _ _ _ Hd) as He.
  destruct (drawLayer_digest scene compiled layer s He)
    as (Hst & _ & _ & _ & Hdraw).
  destruct (Hdraw Hd) as (_ & _ & _ & aPos & aFl & A1 & A2 & A3).
  fold r in Hst, A3. subst this'. rewrite Hst. cbn [this].
  exists aPos, aFl. split; [exact A1|]. split; [exact A2|].
  rewrite A3. reflexivity.
Qed.

(** ** Frame context (C9) *)

(** C9.  After a [drawLayer] call that issued a draw, the renderer holds a
    program whose id is [frameCtx.lastProgramId], and
    [frameCtx.lastRTCCenter] is null when the layer has no RTC center and
    otherwise a vector that is the layer's RTC center itself or equal to it
    under [compareVec3].  Hence the program test of the next draw with this
    renderer finds nothing to bind and, [compareVec3] being reflexive, the
    RTC test of a next draw with the same center finds no change. *)
Theorem drawLayer_leaves_frame_context_in_step (scene : Scene)
    (compiled : Program.t) (layer : BatchingLayer) (s : St) :
  let r := drawLayer scene compiled layer s in
  let fc' := frameCtx (stateOf r) in
  issuesDraw (callsOf r) = true ->
  exists p,
    _program (this (stateOf r)) = Some p /\
    lastProgramId fc' = Some (Program.id p) /\
    programIdDiffers (lastProgramId fc') (Program.id p) = false /\
    match rtcCenter (_state layer) with
    | None => lastRTCCenter fc' = None
    | Some c =>
        exists c', lastRTCCenter fc' = Some c' /\
                   (c' = c \/ compareVec3 c c' = true)
    end /\
    ((forall x, numEq x x = true) ->
     rtcCenterDiffers (rtcCenter (_state layer)) (lastRTCCenter fc') = false).
Proof.
  intros r fc' Hd.
  pose proof (issuesDraw_not_early _ _ _ _ Hd) as He.
  destruct (drawLayer_digest scene compiled layer s He) as (Hst & _).
  fold r in Hst. subst fc'. rewrite Hst. cbn [this frameCtx].
  exists (programInUse compiled (this s)).
  split; [apply thisAfterGuard_program|].
  unfold frameCtxAfter. cbn [lastProgramId lastRTCCenter].
  split; [reflexivity|]. split; [apply programIdDiffers_false; reflexivity|].
  assert (Hrefl : (forall x, numEq x x = true) ->
                  forall v, compareVec3 v v = true).
  { intros H [[x y] z]. unfold compareVec3. rewrite !H. reflexivity. }
  destruct (rtcCenter (_state layer)) as [c|],
           (lastRTCCenter (frameCtx s)) as [l|]; simpl.
  - destruct (compareVec3 c l) eqn:E; simpl.
    + split; [eauto|]. intros _. rewrite E. reflexivity.
    + split; [eauto|]. intros H. rewrite (Hrefl H). reflexivity.
  - split; [eauto|]. intros H. rewrite (Hrefl H). reflexivity.
  - auto.
  - auto.
Qed.

(** ** Validity (C4) *)

Lemma removeAt_length {A : Type} (i : nat) (l : list A) :
  i < List.length l -> S (List.length (removeAt i l)) = List.length l.
Proof.
  revert i. induction l as [|x l IH]; intros [|i] H; simpl in *; try lia.
  rewrite IH; lia.
Qed.

(** [_allocate] and [webglContextRestored] leave the cached hash alone:
    only the constructor sets it. *)
Lemma _allocate_keeps_hash (scene : Scene) (compiled : Program.t)
    (r : Renderer) :
  _hash (_allocate scene compiled r) = _hash r /\
  _hash (webglContextRestored r) = _hash r.
Proof.
  unfold _allocate. destruct (Program.errors compiled); auto.
Qed.

(** [drawLayer] leaves the cached hash alone. *)
Lemma drawLayer_keeps_hash (scene : Scene) (compiled : Program.t)
    (layer : BatchingLayer) (s : St) :
  _hash (this (stateOf (drawLayer scene compiled layer s))) = _hash (this s).
Proof.
  destruct (returnsEarly scene compiled (this s)) eqn:He.
  - rewrite (drawLayer_early scene compiled layer s He).
    apply _allocate_keeps_hash.
  - destruct (drawLayer_anatomy scene compiled layer s He) as [Hst _].
    rewrite Hst. cbn [this]. unfold thisAfterGuard.
    destruct (_program (this s)); [reflexivity|].
    apply _allocate_keeps_hash.
Qed.

(** C4.  For a renderer that is valid for the scene, [getValid()] returns
    false as soon as a section plane has been added to the scene or removed
    from it, and it still returns false after that renderer has
    reallocated its program in place ([webglContextRestored()] followed by
    a [drawLayer]); it returns true for a renderer newly constructed for
    the changed scene. *)
Theorem getValid_false_until_reconstruction (scene : Scene)
    (compiled : Program.t) (layer : BatchingLayer) (fc : FrameCtx)
    (r : Renderer) (plane : SectionPlane) (i : nat) :
  getValid scene r = true ->
  i < List.length (sectionPlanes (_sectionPlanesState scene)) ->
  let added := withSectionPlanes (addSectionPlane plane) scene in
  let removed := withSectionPlanes (removeSectionPlane i) scene in
  let reallocated sc :=
    this (stateOf (drawLayer sc compiled layer
                     (mkSt (webglContextRestored r) fc))) in
  getValid added r = false /\
  getValid removed r = false /\
  getValid added (reallocated added) = false /\
  getValid removed (reallocated removed) = false /\
  getValid added (constructor added compiled) = true /\
  getValid removed (constructor removed compiled) = true.
Proof.
  intros Hv Hi added removed reallocated.
  assert (Hre : forall sc sc', getValid sc' (reallocated sc) = getValid sc' r).
  { intros sc sc'. unfold getValid, reallocated.
    rewrite drawLayer_keeps_hash. cbn [this].
    destruct (_allocate_keeps_hash sc compiled r) as [_ H]. rewrite H.
    reflexivity. }
  assert (Hc : forall sc, getValid sc (constructor sc compiled) = true).
  { intros sc. unfold getValid, constructor.
    destruct (_allocate_keeps_hash sc compiled
                (mkRenderer (getHash (_sectionPlanesState sc)) None None
                   None None None None None None None None None)) as [H _].
    rewrite H. cbn [_hash]. unfold hashEqb. rewrite !Nat.eqb_refl.
    reflexivity. }
  assert (Hn : fst (_hash r)
               = List.length (sectionPlanes (_sectionPlanesState scene))).
  { unfold getValid, hashEqb, getHash in Hv. cbn [fst snd] in Hv.
    apply andb_true_iff in Hv. destruct Hv as [Hv _].
    apply Nat.eqb_eq in Hv. exact Hv. }
  assert (Ha : getValid added r = false).
  { unfold getValid, hashEqb, getHash. subst added.
    cbn [withSectionPlanes addSectionPlane _sectionPlanesState sectionPlanes
         planesIdentity fst snd].
    rewrite length_app. cbn [List.length].
    apply andb_false_iff. left. apply Nat.eqb_neq. lia. }
  assert (Hr : getValid removed r = false).
  { unfold getValid, hashEqb, getHash. subst removed.
    cbn [withSectionPlanes removeSectionPlane _sectionPlanesState
         sectionPlanes planesIdentity fst snd].
    pose proof (removeAt_length i _ Hi) as Hlen.
    apply andb_false_iff. left. apply Nat.eqb_neq. lia. }
  rewrite !Hre, !Hc. repeat split; assumption.
Qed.

End RendererProperties.

(** ** The renderer on concrete inputs *)

Section RendererRuns.

Import Sample.
#[local] Existing Instance zMath.

(** C1.  A renderer that lost its program allocates in [drawLayer]; when
    that compilation fails, the call records the errors and returns without
    any GL call.  The next [drawLayer] call on the same renderer is not a
    no-op: it binds the failed program, writes the matrix uniforms, binds
    the attribute handles left over from the previous program and issues
    [drawElements].  A renderer whose very first compilation (in the
    constructor) failed does not skip either: its first [drawLayer] binds
    the program, writes three matrix uniforms and throws a [TypeError]. *)
Theorem drawLayer_after_failed_compilation_is_not_skipped :
  let failing :=
    drawLayer scene0 (failedProgram 2) layerW (mkSt restored0 freshFrame) in
  let again :=
    drawLayer scene0 (failedProgram 3) layerW (stateOf failing) in
  let first :=
    drawLayer scene0 (failedProgram 3) layerW
      (mkSt (constructor scene0 (failedProgram 2)) freshFrame) in
  (completionOf failing = Normal tt /\
   callsOf failing = [] /\
   errors (this (stateOf failing))
     = Some ["Vertex shader failed to allocate"%string]) /\
  (completionOf again = Normal tt /\
   callsOf again =
     [ ProgramBind 2;
       UniformMatrix4fv (Some 418) false [3; 0; 0; 3]%Z;
       UniformMatrix4fv (Some 176) false [1; 0; 0; 1]%Z;
       UniformMatrix4fv (Some 277) false [2; 0; 0; 2]%Z;
       BindArrayBuffer 0 10; BindArrayBuffer 2 12; BindArrayBuffer 3 13;
       IndicesBind (mkIndicesBuf 15 36 23);
       DrawElements 4 36 23 0 ]) /\
  (completionOf first = Throw TypeError /\
   callsOf first =
     [ ProgramBind 2;
       UniformMatrix4fv None false [3; 0; 0; 3]%Z;
       UniformMatrix4fv None false [1; 0; 0; 1]%Z;
       UniformMatrix4fv None false [2; 0; 0; 2]%Z ]).
Proof. vm_compute. repeat split. Qed.

(** Two layers that share a program and an RTC center: one program bind
    in all. *)
Lemma drawLayer_binds_program_iff_id_differs_witness :
  _program (this start2) = Some (compiledProgram 1) /\
  countProgramBinds (callsOf drawA ++ callsOf drawB) <= 1.
Proof.
  split; [reflexivity|].
  apply (drawLayer_binds_program_iff_id_differs scene2 (compiledProgram 9)
           (compiledProgram 9) layerA layerB start2 (compiledProgram 1)).
  reflexivity.
Defined.

(** The first draw reloads the section planes, the second does not. *)
Lemma drawLayer_reloads_section_planes_iff_witness :
  (issuesDraw (callsOf drawA) = true /\
   sectionPlaneWrites (callsOf drawA) <> []) /\
  sectionPlaneWrites (callsOf drawB) = [].
Proof.
  split.
  - split; [reflexivity|].
    apply (drawLayer_reloads_section_planes_iff scene2 (compiledProgram 9)
             layerA start2); [reflexivity | discriminate | reflexivity].
  - apply (drawLayer_reloads_section_planes_iff scene2 (compiledProgram 9)
             layerB (stateOf drawA)).
    reflexivity.
Defined.

(** The reload of the first draw: plane 0 is active, plane 1 is not. *)
Lemma drawLayer_reload_writes_each_plane_witness :
  issuesDraw (callsOf drawA) = true /\
  sectionPlaneWrites (callsOf drawA) =
    [ Uniform1i (Some 287) 1;
      Uniform3fv (Some 785) (-5, 0, 0)%Z;
      Uniform3fv (Some 404) (1, 0, 0)%Z;
      Uniform1i (Some 288) 0 ].
Proof.
  split; [reflexivity|].
  apply (drawLayer_reload_writes_each_plane scene2 (compiledProgram 9)
           layerA start2); reflexivity.
Defined.

Lemma drawLayer_writes_view_and_projection_matrices_witness :
  returnsEarly scene2 (compiledProgram 9) (this start2) = false /\
  exists viewMat rest,
    matrixWrites (callsOf drawA) =
      UniformMatrix4fv (_uViewMatrix (this (stateOf drawA))) false viewMat
      :: UniformMatrix4fv (_uProjMatrix (this (stateOf drawA))) false
           (projMatrix scene2)
      :: rest /\
    (forall c, rtcCenter (_state layerA) = Some c ->
               viewMat = createRTCViewMat (viewMatrix (model layerA)) c) /\
    (rtcCenter (_state layerA) = None -> viewMat = viewMatrix (model layerA)) /\
    (rest = [] \/
     rest = [UniformMatrix4fv (_uPositionsDecodeMatrix (this (stateOf drawA)))
               false (positionsDecodeMatrix (_state layerA))]).
Proof.
  split; [reflexivity|].
  apply (drawLayer_writes_view_and_projection_matrices scene2
           (compiledProgram 9) layerA start2).
  reflexivity.
Defined.

(** The sample shader declares neither [offset] nor [flags2]. *)
Lemma drawLayer_binds_declared_attributes_witness :
  issuesDraw (callsOf drawA) = true /\
  exists aPosition aFlags,
    _aPosition (this (stateOf drawA)) = Some aPosition /\
    _aFlags (this (stateOf drawA)) = Some aFlags /\
    attributeBinds (callsOf drawA) =
      [BindArrayBuffer aPosition 10] ++ [] ++ [BindArrayBuffer 2 12]
      ++ [BindArrayBuffer aFlags 13] ++ [].
Proof.
  split; [reflexivity|].
  apply (drawLayer_binds_declared_attributes scene2 (compiledProgram 9)
           layerA start2).
  reflexivity.
Defined.

Lemma drawLayer_leaves_frame_context_in_step_witness :
  issuesDraw (callsOf drawA) = true /\
  exists p,
    _program (this (stateOf drawA)) = Some p /\
    lastProgramId (frameCtx (stateOf drawA)) = Some (Program.id p) /\
    programIdDiffers (lastProgramId (frameCtx (stateOf drawA))) (Program.id p)
      = false /\
    (exists c', lastRTCCenter (frameCtx (stateOf drawA)) = Some c' /\
                (c' = (10, 0, 0)%Z \/ compareVec3 (10, 0, 0)%Z c' = true)) /\
    ((forall x, numEq x x = true) ->
     rtcCenterDiffers (rtcCenter (_state layerA))
       (lastRTCCenter (frameCtx (stateOf drawA))) = false).
Proof.
  split; [reflexivity|].
  apply (drawLayer_leaves_frame_context_in_step scene2 (compiledProgram 9)
           layerA start2).
  reflexivity.
Defined.

Lemma getValid_false_until_reconstruction_witness :
  (getValid scene2 renderer2 = true /\
   0 < List.length (sectionPlanes (_sectionPlanesState scene2))) /\
  getValid scene3 renderer2 = false /\
  getValid (withSectionPlanes (removeSectionPlane 0) scene2) renderer2
    = false /\
  getValid scene3 (this (stateOf reallocated2)) = false /\
  getValid scene3 (constructor scene3 (compiledProgram 7)) = true.
Proof.
  split; [split; [reflexivity | simpl; lia]|].
  destruct (getValid_false_until_reconstruction scene2 (compiledProgram 7)
              layerA freshFrame renderer2 planeX 0)
    as (H1 & H2 & H3 & _ & H5 & _); [reflexivity | simpl; lia |].
  repeat split; assumption.
Defined.

(** C4 does not hold as it is stated: a renderer that has reallocated is
    not valid again.  The renderer built for two planes, reallocated in
    place after a third plane was added, holds the newly compiled program
    with three uniform entries and draws with it, and [getValid()] still
    returns false. *)
Lemma getValid_stays_false_after_in_place_reallocation :
  getValid scene2 renderer2 = true /\
  completionOf reallocated2 = Normal tt /\
  issuesDraw (callsOf reallocated2) = true /\
  option_map Program.id (_program (this (stateOf reallocated2))) = Some 7 /\
  List.length (uniformTable (this (stateOf reallocated2))) = 3 /\
  getValid scene3 (this (stateOf reallocated2)) = false.
Proof. vm_compute. repeat split. Qed.

End RendererRuns.

(** ** The Ortho scale *)

Section OrthoProperties.

Import Ortho.

Lemma set_scale_positive (value : JsValue) (o : t) :
  value <> JsNumber NaN -> positive (_scale (set_scale value o)).
Proof.
  intros Hn. unfold set_scale. cbn [_scale].
  destruct value as [| |x]; [reflexivity | reflexivity |].
  destruct (leb x zero) eqn:E; [reflexivity|].
  destruct x as [s|s| |s m e].
  - cbv in E. discriminate E.
  - destruct s; [cbv in E; discriminate E | reflexivity].
  - exfalso. apply Hn. reflexivity.
  - destruct s; [cbv in E; discriminate E | reflexivity].
Qed.




End OrthoProperties.

(** * Further behaviour of the renderer *)

Section RendererBehaviour.

Context {math : Math}.

(** The last step, when both mandatory handles exist. *)
Lemma drawLayer_bindAndDraw_calls (layer : BatchingLayer) (s : St)
    (aPos aFl : Attribute) :
  _aPosition (this s) = Some aPos ->
  _aFlags (this s) = Some aFl ->
  let st := _state layer in
  drawLayer_bindAndDraw layer s =
  (Normal tt, s,
   UniformMatrix4fv (_uPositionsDecodeMatrix (this s)) false
     (positionsDecodeMatrix st)
   :: BindArrayBuffer aPos (positionsBuf st)
   :: optionalBind (_aOffset (this s)) (offsetsBuf st)
   ++ optionalBind (_aColor (this s)) (colorsBuf st)
   ++ BindArrayBuffer aFl (flagsBuf st)
   :: optionalBind (_aFlags2 (this s)) (flags2Buf st)
   ++ [ IndicesBind (indicesBuf st);
        DrawElements (primitive st) (numItems (indicesBuf st))
          (itemType (indicesBuf st)) 0 ]).
Proof.
  intros Hp Hf st. destruct s as [r fc]. cbn [this] in *.
  unfold drawLayer_bindAndDraw, bindIfPresent, bind, getThis, optionalBind.
  simpl. rewrite Hp. simpl.
  destruct (_aOffset r), (_aColor r); simpl; rewrite Hf; simpl;
    destruct (_aFlags2 r); reflexivity.
Qed.

(** The last step throws when a mandatory handle is missing. *)
Lemma drawLayer_bindAndDraw_throws (layer : BatchingLayer) (s : St) :
  _aPosition (this s) = None \/ _aFlags (this s) = None ->
  completionOf (drawLayer_bindAndDraw layer s) = Throw TypeError.
Proof.
  destruct s as [r fc]. cbn [this].
  unfold drawLayer_bindAndDraw, bindIfPresent, bind, getThis, completionOf.
  simpl. intros [H | H].
  - rewrite H. reflexivity.
  - destruct (_aPosition r); simpl; [|reflexivity].
    destruct (_aOffset r), (_aColor r); simpl; rewrite H; reflexivity.
Qed.

(** The plane loop runs to its end when the table has an entry for each
    remaining plane. *)
Lemma drawLayer_sectionPlanesLoop_completes (scene : Scene)
    (layer : BatchingLayer) (base : nat) (s : St) (k i : nat) :
  i + k = List.length (sectionPlanes (_sectionPlanesState scene)) ->
  i + k <= List.length (uniformTable (this s)) ->
  completionOf (drawLayer_sectionPlanesLoop scene layer base k i s)
  = Normal tt.
Proof.
  revert i. induction k as [|k IH]; intros i Hp Ht; [reflexivity|].
  change (drawLayer_sectionPlanesLoop scene layer base (S k) i s)
    with (bind (drawLayer_sectionPlane scene layer base i)
               (fun _ => drawLayer_sectionPlanesLoop scene layer base k (S i))
               s).
  rewrite bind_run.
  destruct (nth_error (uniformTable (this s)) i) as [u|] eqn:Eu;
    [|apply nth_error_None in Eu; lia].
  destruct (nth_error (sectionPlanes (_sectionPlanesState scene)) i)
    as [pl|] eqn:Epl; [|apply nth_error_None in Epl; lia].
  rewrite (drawLayer_sectionPlane_run scene layer base i s u pl Eu Epl).
  specialize (IH (S i)).
  destruct (drawLayer_sectionPlanesLoop scene layer base k (S i) s)
    as [[c2 s2] t2].
  unfold completionOf in *. cbn [fst] in *. apply IH; lia.
Qed.

(** The reload step returns exactly when it has nothing to load or the
    table covers the planes of the scene. *)
Lemma drawLayer_loadSectionPlanes_completes_iff (scene : Scene)
    (layer : BatchingLayer) (load : bool) (s : St) :
  completionOf (drawLayer_loadSectionPlanes scene layer load s) = Normal tt
  <-> (load = true ->
       List.length (sectionPlanes (_sectionPlanesState scene))
         <= List.length (uniformTable (this s))).
Proof.
  destruct load.
  - split.
    + intros H _. apply (drawLayer_loadSectionPlanes_normal scene layer s H).
    + intros H. specialize (H eq_refl). unfold drawLayer_loadSectionPlanes.
      destruct (sectionPlanes (_sectionPlanesState scene)) as [|pl planes]
        eqn:E; [reflexivity|].
      change (Nat.ltb 0 (List.length (pl :: planes))) with true. cbv iota.
      apply drawLayer_sectionPlanesLoop_completes; rewrite ?E; simpl in *; lia.
  - split; [discriminate | reflexivity].
Qed.

(** A call that passes the guard, as its three last steps. *)
Lemma drawLayer_outcome (scene : Scene) (compiled : Program.t)
    (layer : BatchingLayer) (s : St) :
  returnsEarly scene compiled (this s) = false ->
  let this' := thisAfterGuard scene compiled (this s) in
  let p := programInUse compiled (this s) in
  let b := programIdDiffers (lastProgramId (frameCtx s)) (Program.id p) in
  let d := rtcCenterDiffers (rtcCenter (_state layer))
             (lastRTCCenter (frameCtx s)) in
  let s2 := mkSt this' (frameCtxAfter p layer (frameCtx s)) in
  let pre :=
    (if b then [ProgramBind (Program.id p)] else [])
    ++ [ UniformMatrix4fv (_uViewMatrix this') false
           (match rtcCenter (_state layer) with
            | Some c => createRTCViewMat (viewMatrix (model layer)) c
            | None => viewMatrix (model layer)
            end);
         UniformMatrix4fv (_uProjMatrix this') false (projMatrix scene) ] in
  drawLayer scene compiled layer s =
  match drawLayer_loadSectionPlanes scene layer (b || d) s2 with
  | (Normal _, _, pc) =>
      match drawLayer_bindAndDraw layer s2 with
      | (c, _, tc) => (c, s2, pre ++ pc ++ tc)
      end
  | (Throw e, _, pc) => (Throw e, s2, pre ++ pc)
  end.
Proof.
  intros He this' p b d s2 pre.
  rewrite drawLayer_run, He.
  pose proof (thisAfterGuard_program scene compiled (this s)) as Hp.
  fold this' p in Hp |- *.
  rewrite (drawLayer_body_run scene layer (mkSt this' (frameCtx s)) p Hp).
  reflexivity.
Qed.

(** Calls made before the reload step contain no draw. *)
Lemma issuesDraw_prefix (pre pc tc : list GLCall) :
  issuesDraw pre = false ->
  Forall (fun c => isSectionPlaneWrite c = true) pc ->
  issuesDraw (pre ++ pc ++ tc) = issuesDraw tc.
Proof.
  intros Hpre Hpc. unfold issuesDraw in *. rewrite !existsb_app, Hpre.
  destruct (sectionPlaneWrites_only pc Hpc) as (_ & _ & _ & _ & H).
  unfold issuesDraw in H. rewrite H. reflexivity.
Qed.

(** When [drawLayer] throws.  A call that passes the allocation guard
    returns normally exactly when the uniform table has an entry for every
    section plane of the scene (as far as a reload is due) and the
    [position] and [flags] attribute handles exist; otherwise it throws a
    [TypeError].  It issues [drawElements] exactly when it returns
    normally. *)
Theorem drawLayer_completes_iff (scene : Scene) (compiled : Program.t)
    (layer : BatchingLayer) (s : St) :
  returnsEarly scene compiled (this s) = false ->
  let this' := thisAfterGuard scene compiled (this s) in
  let p := programInUse compiled (this s) in
  let reload :=
    programIdDiffers (lastProgramId (frameCtx s)) (Program.id p)
    || rtcCenterDiffers (rtcCenter (_state layer))
         (lastRTCCenter (frameCtx s)) in
  let r := drawLayer scene compiled layer s in
  (completionOf r = Normal tt <->
   (reload = true ->
    List.length (sectionPlanes (_sectionPlanesState scene))
      <= List.length (uniformTable this')) /\
   _aPosition this' <> None /\ _aFlags this' <> None) /\
  (completionOf r = Normal tt \/ completionOf r = Throw TypeError) /\
  (issuesDraw (callsOf r) = true <-> completionOf r = Normal tt).
Proof.
  intros He this' p reload r. subst r.
  rewrite (drawLayer_outcome scene compiled layer s He).
  fold this' p. cbv zeta.
  set (s2 := mkSt this' (frameCtxAfter p layer (frameCtx s))).
  fold reload.
  set (pre := (if programIdDiffers _ _ then _ else _) ++ _).
  assert (Hpre : issuesDraw pre = false)
    by (subst pre; destruct (programIdDiffers _ _); reflexivity).
  pose proof (drawLayer_loadSectionPlanes_completes_iff scene layer reload s2)
    as Hload.
  destruct (drawLayer_loadSectionPlanes_inv scene layer reload s2)
    as [_ Hall].
  destruct (drawLayer_loadSectionPlanes scene layer reload s2)
    as [[c1 s3] pc].
  unfold completionOf, callsOf in Hload, Hall. cbn [fst snd] in Hload, Hall.
  change (this s2) with this' in Hload.
  destruct c1 as [[]|[]].
  - pose proof (drawLayer_bindAndDraw_calls layer s2) as Hcalls.
    pose proof (drawLayer_bindAndDraw_throws layer s2) as Hthrow.
    change (this s2) with this' in Hcalls, Hthrow.
    destruct (_aPosition this') as [aPos|] eqn:Ep.
    + destruct (_aFlags this') as [aFl|] eqn:Ef.
      * rewrite (Hcalls aPos aFl eq_refl eq_refl).
        unfold completionOf, callsOf. cbn [fst snd].
        rewrite (issuesDraw_prefix _ _ _ Hpre Hall).
        split; [|split].
        -- split; [intros _|reflexivity].
           split; [apply Hload; reflexivity | split; discriminate].
        -- left. reflexivity.
        -- split; [reflexivity|]. intros _.
           destruct (_aOffset this'), (_aColor this'), (_aFlags2 this');
             reflexivity.
      * specialize (Hthrow (or_intror eq_refl)).
        destruct (drawLayer_bindAndDraw_cases layer s2)
          as (_ & _ & _ & _ & [(a1 & a2 & _ & _ & A3 & _) | [_ Hno]]);
          [rewrite Hthrow in A3; discriminate|].
        destruct (drawLayer_bindAndDraw layer s2) as [[c s4] tc].
        unfold completionOf, callsOf in *. cbn [fst snd] in *. subst c.
        rewrite (issuesDraw_prefix _ _ _ Hpre Hall), Hno.
        split; [|split].
        -- split; [discriminate | intros (_ & _ & H); congruence].
        -- right. reflexivity.
        -- split; discriminate.
    + specialize (Hthrow (or_introl eq_refl)).
      destruct (drawLayer_bindAndDraw_cases layer s2)
        as (_ & _ & _ & _ & [(a1 & a2 & _ & _ & A3 & _) | [_ Hno]]);
        [rewrite Hthrow in A3; discriminate|].
      destruct (drawLayer_bindAndDraw layer s2) as [[c s4] tc].
      unfold completionOf, callsOf in *. cbn [fst snd] in *. subst c.
      rewrite (issuesDraw_prefix _ _ _ Hpre Hall), Hno.
      split; [|split].
      * split; [discriminate | intros (_ & H & _); congruence].
      * right. reflexivity.
      * split; discriminate.
  - unfold completionOf, callsOf. cbn [fst snd].
    replace (pre ++ pc) with (pre ++ pc ++ []) by (rewrite app_nil_r; reflexivity).
    rewrite (issuesDraw_prefix _ _ _ Hpre Hall).
    split; [|split].
    + split; [discriminate|]. intros (H & _). apply Hload in H. discriminate.
    + right. reflexivity.
    + split; discriminate.
Qed.

(** A call that passes the guard and meets the two conditions, in full. *)
Lemma drawLayer_normal_calls (scene : Scene) (compiled : Program.t)
    (layer : BatchingLayer) (s : St) (aPos aFl : Attribute) :
  returnsEarly scene compiled (this s) = false ->
  let this' := thisAfterGuard scene compiled (this s) in
  let p := programInUse compiled (this s) in
  let b := programIdDiffers (lastProgramId (frameCtx s)) (Program.id p) in
  let d := rtcCenterDiffers (rtcCenter (_state layer))
             (lastRTCCenter (frameCtx s)) in
  let st := _state layer in
  (b || d = true ->
   List.length (sectionPlanes (_sectionPlanesState scene))
     <= List.length (uniformTable this')) ->
  _aPosition this' = Some aPos ->
  _aFlags this' = Some aFl ->
  drawLayer scene compiled layer s =
  (Normal tt,
   mkSt this' (frameCtxAfter p layer (frameCtx s)),
   (if b then [ProgramBind (Program.id p)] else [])
   ++ [ UniformMatrix4fv (_uViewMatrix this') false
          (match rtcCenter st with
           | Some c => createRTCViewMat (viewMatrix (model layer)) c
           | None => viewMatrix (model layer)
           end);
        UniformMatrix4fv (_uProjMatrix this') false (projMatrix scene) ]
   ++ (if b || d then reloadWrites scene layer (uniformTable this') else [])
   ++ UniformMatrix4fv (_uPositionsDecodeMatrix this') false
        (positionsDecodeMatrix st)
      :: BindArrayBuffer aPos (positionsBuf st)
      :: optionalBind (_aOffset this') (offsetsBuf st)
      ++ optionalBind (_aColor this') (colorsBuf st)
      ++ BindArrayBuffer aFl (flagsBuf st)
      :: optionalBind (_aFlags2 this') (flags2Buf st)
      ++ [ IndicesBind (indicesBuf st);
           DrawElements (primitive st) (numItems (indicesBuf st))
             (itemType (indicesBuf st)) 0 ]).
Proof.
  intros He this' p b d st Htable Hp Hf.
  rewrite (drawLayer_outcome scene compiled layer s He).
  fold this' p b d. cbv zeta.
  set (s2 := mkSt this' (frameCtxAfter p layer (frameCtx s))).
  rewrite (drawLayer_bindAndDraw_calls layer s2 aPos aFl Hp Hf).
  change (this s2) with this'. fold st.
  destruct (drawLayer_loadSectionPlanes_inv scene layer (b || d) s2)
    as [Hs _].
  destruct (b || d) eqn:Ebd.
  - assert (Hn : completionOf (drawLayer_loadSectionPlanes scene layer true s2)
                 = Normal tt)
      by (apply drawLayer_loadSectionPlanes_completes_iff; intros _;
          apply Htable; reflexivity).
    destruct (drawLayer_loadSectionPlanes_normal scene layer s2 Hn)
      as [_ Hcalls].
    change (this s2) with this' in Hcalls.
    destruct (drawLayer_loadSectionPlanes scene layer true s2)
      as [[c1 s3] pc].
    unfold completionOf, callsOf in Hn, Hcalls. cbn [fst snd] in Hn, Hcalls.
    subst c1 pc. rewrite <- !app_assoc. reflexivity.
  - rewrite drawLayer_loadSectionPlanes_skip. rewrite <- !app_assoc.
    reflexivity.
Qed.

(** The complete call sequence of a draw.  A [drawLayer] call that issues
    [drawElements] makes exactly these calls, in this order: the program
    bind if the program id differs; the view and projection matrices; the
    section-plane reload if it is due; the decode matrix; the position,
    optional offset, optional color, flags and optional flags2 buffers;
    the index buffer; and last [drawElements] with the layer's primitive,
    index count and index type, at offset 0. *)
Theorem drawLayer_call_sequence (scene : Scene) (compiled : Program.t)
    (layer : BatchingLayer) (s : St) :
  let this' := thisAfterGuard scene compiled (this s) in
  let p := programInUse compiled (this s) in
  let bound := programIdDiffers (lastProgramId (frameCtx s)) (Program.id p) in
  let moved := rtcCenterDiffers (rtcCenter (_state layer))
                 (lastRTCCenter (frameCtx s)) in
  let st := _state layer in
  let r := drawLayer scene compiled layer s in
  issuesDraw (callsOf r) = true ->
  exists aPosition aFlags,
    _aPosition this' = Some aPosition /\
    _aFlags this' = Some aFlags /\
    callsOf r =
      (if bound then [ProgramBind (Program.id p)] else [])
      ++ [ UniformMatrix4fv (_uViewMatrix this') false
             (match rtcCenter st with
              | Some c => createRTCViewMat (viewMatrix (model layer)) c
              | None => viewMatrix (model layer)
              end);
           UniformMatrix4fv (_uProjMatrix this') false (projMatrix scene) ]
      ++ (if bound || moved
          then reloadWrites scene layer (uniformTable this') else [])
      ++ [ UniformMatrix4fv (_uPositionsDecodeMatrix this') false
             (positionsDecodeMatrix st);
           BindArrayBuffer aPosition (positionsBuf st) ]
      ++ optionalBind (_aOffset this') (offsetsBuf st)
      ++ optionalBind (_aColor this') (colorsBuf st)
      ++ [BindArrayBuffer aFlags (flagsBuf st)]
      ++ optionalBind (_aFlags2 this') (flags2Buf st)
      ++ [ IndicesBind (indicesBuf st);
           DrawElements (primitive st) (numItems (indicesBuf st))
             (itemType (indicesBuf st)) 0 ].
Proof.
  intros this' p bound moved st r Hd.
  pose proof (issuesDraw_not_early _ _ _ _ Hd) as He.
  destruct (drawLayer_digest scene compiled layer s He)
    as (_ & _ & _ & _ & Hdraw).
  destruct (Hdraw Hd) as (_ & _ & Hlen & aPos & aFl & A1 & A2 & _).
  exists aPos, aFl. split; [exact A1|]. split; [exact A2|].
  subst r.
  rewrite (drawLayer_normal_calls scene compiled layer s aPos aFl He Hlen A1 A2).
  reflexivity.
Qed.

(** One iteration, when the table has no entry for the plane. *)
Lemma drawLayer_sectionPlane_missing (scene : Scene) (layer : BatchingLayer)
    (base i : nat) (s : St) :
  nth_error (uniformTable (this s)) i = None ->
  drawLayer_sectionPlane scene layer base i s = (Throw TypeError, s, []).
Proof.
  unfold uniformTable, drawLayer_sectionPlane, bind, getThis. simpl.
  destruct (_uSectionPlanes (this s)) as [table|]; simpl; [|reflexivity].
  intros H. rewrite H. reflexivity.
Qed.

(** The writes of the plane loop, whether it ends or throws: the planes
    from [i] on that have an entry in the uniform table. *)
Lemma drawLayer_sectionPlanesLoop_calls (scene : Scene)
    (layer : BatchingLayer) (s : St) (k i : nat) :
  let planes := sectionPlanes (_sectionPlanesState scene) in
  i + k = List.length planes ->
  callsOf
    (drawLayer_sectionPlanesLoop scene layer
       (layerIndex layer * List.length planes) k i s) =
  flat_map
    (fun entry : nat * SectionPlaneUniforms * SectionPlane =>
       let '(j, u, plane) := entry in
       planeWrites layer u plane (planeActive scene layer j))
    (combine (combine (seq i k) (skipn i (uniformTable (this s))))
             (skipn i planes)).
Proof.
  intros planes. revert i. induction k as [|k IH]; intros i Hlen;
    [reflexivity|].
  change (drawLayer_sectionPlanesLoop scene layer
            (layerIndex layer * List.length planes) (S k) i s)
    with (bind (drawLayer_sectionPlane scene layer
                  (layerIndex layer * List.length planes) i)
               (fun _ => drawLayer_sectionPlanesLoop scene layer
                  (layerIndex layer * List.length planes) k (S i)) s).
  rewrite bind_run.
  destruct (nth_error (uniformTable (this s)) i) as [u|] eqn:Eu.
  - destruct (nth_error planes i) as [pl|] eqn:Epl;
      [|apply nth_error_None in Epl; lia].
    rewrite (drawLayer_sectionPlane_run scene layer _ i s u pl Eu Epl).
    specialize (IH (S i)).
    destruct (drawLayer_sectionPlanesLoop scene layer
                (layerIndex layer * List.length planes) k (S i) s)
      as [[c2 s2] t2].
    unfold callsOf in *. cbn [snd] in *.
    rewrite (nth_error_skipn_cons _ _ _ Eu), (nth_error_skipn_cons _ _ _ Epl).
    cbn [seq combine flat_map]. rewrite IH by lia. reflexivity.
  - rewrite (drawLayer_sectionPlane_missing scene layer _ i s Eu).
    apply nth_error_None in Eu. rewrite (skipn_all2 _ Eu).
    unfold callsOf. cbn [snd seq combine flat_map]. reflexivity.
Qed.

(** The writes of a reload, whether it ends or throws. *)
Lemma drawLayer_loadSectionPlanes_calls (scene : Scene)
    (layer : BatchingLayer) (s : St) :
  callsOf (drawLayer_loadSectionPlanes scene layer true s) =
  reloadWrites scene layer (uniformTable (this s)).
Proof.
  unfold drawLayer_loadSectionPlanes, reloadWrites.
  destruct (sectionPlanes (_sectionPlanesState scene)) as [|pl planes] eqn:E;
    [reflexivity|].
  change (Nat.ltb 0 (List.length (pl :: planes))) with true. cbv iota.
  rewrite <- E.
  apply (drawLayer_sectionPlanesLoop_calls scene layer s _ 0). reflexivity.
Qed.

(** What [_allocate] sets when the compilation succeeded. *)
Lemma _allocate_success (scene : Scene) (compiled : Program.t)
    (r : Renderer) :
  Program.errors compiled = None ->
  let r' := _allocate scene compiled r in
  _program r' = Some compiled /\ errors r' = errors r /\
  _hash r' = _hash r /\
  List.length (uniformTable r')
    = List.length (sectionPlanes (_sectionPlanesState scene)) /\
  _aPosition r' = Program.getAttribute compiled "position" /\
  _aFlags r' = Program.getAttribute compiled "flags".
Proof.
  intros He r'. subst r'. unfold _allocate, uniformTable. rewrite He.
  cbn [_program errors _hash _uSectionPlanes _aPosition _aFlags setProgram].
  rewrite length_map, length_seq. repeat split; reflexivity.
Qed.

(** A valid renderer draws.  A renderer constructed with a program that
    compiled and declares [position] and [flags], for which [getValid()]
    holds on the scene as it is now, draws any layer in any frame context
    without throwing, issues [drawElements], and is left unchanged. *)
Theorem valid_renderer_draws (scene scene' : Scene)
    (compiled compiled' : Program.t) (layer : BatchingLayer)
    (fc : FrameCtx) :
  Program.errors compiled = None ->
  Program.getAttribute compiled "position" <> None ->
  Program.getAttribute compiled "flags" <> None ->
  getValid scene' (constructor scene compiled) = true ->
  let r :=
    drawLayer scene' compiled' layer (mkSt (constructor scene compiled) fc) in
  completionOf r = Normal tt /\
  issuesDraw (callsOf r) = true /\
  this (stateOf r) = constructor scene compiled.
Proof.
  intros He Hpos Hfl Hv r.
  destruct (_allocate_success scene compiled
              (mkRenderer (getHash (_sectionPlanesState scene)) None None
                 None None None None None None None None None) He)
    as (Hp & _ & Hh & Hlen & Hap & Haf).
  fold (constructor scene compiled) in Hp, Hh, Hlen, Hap, Haf.
  cbn [_hash] in Hh.
  unfold getValid, hashEqb in Hv. apply andb_true_iff in Hv.
  destruct Hv as [Hv _]. apply Nat.eqb_eq in Hv.
  rewrite Hh in Hv. unfold getHash in Hv. cbn [fst] in Hv.
  destruct (returnsEarly_with_program scene' compiled'
              (constructor scene compiled) compiled Hp) as (Hearly & Hthis & _).
  destruct (Program.getAttribute compiled "position") as [aPos|] eqn:E1;
    [|congruence].
  destruct (Program.getAttribute compiled "flags") as [aFl|] eqn:E2;
    [|congruence].
  subst r.
  rewrite (drawLayer_normal_calls scene' compiled' layer
             (mkSt (constructor scene compiled) fc) aPos aFl).
  - unfold completionOf, stateOf, callsOf. cbn [fst snd this].
    split; [reflexivity|]. split; [|exact Hthis].
    unfold issuesDraw. rewrite !existsb_app.
    replace (existsb isDraw
               (UniformMatrix4fv _ _ _ :: BindArrayBuffer _ _ :: _ ++ _ ++ _ :: _ ++ _))
      with true; [rewrite !orb_true_r; reflexivity|].
    simpl. rewrite !existsb_app. simpl. rewrite !existsb_app. simpl.
    rewrite !orb_true_r. reflexivity.
  - exact Hearly.
  - intros _. cbn [this]. rewrite Hthis, Hlen, Hv. apply Nat.le_refl.
  - cbn [this]. rewrite Hthis. exact Hap.
  - cbn [this]. rewrite Hthis. exact Haf.
Qed.

(** Drawing with too short a uniform table.  When a reload is due and the
    scene has more section planes than the renderer has uniform entries
    (planes were added since the allocation), the call throws a
    [TypeError] and never reaches [drawElements]; before that it has
    written the uniforms of the planes it has entries for, and it has
    already recorded its program and the RTC center in the frame
    context. *)
Theorem drawLayer_throws_on_short_uniform_table (scene : Scene)
    (compiled : Program.t) (layer : BatchingLayer) (s : St) :
  returnsEarly scene compiled (this s) = false ->
  let this' := thisAfterGuard scene compiled (this s) in
  let p := programInUse compiled (this s) in
  let r := drawLayer scene compiled layer s in
  programIdDiffers (lastProgramId (frameCtx s)) (Program.id p)
  || rtcCenterDiffers (rtcCenter (_state layer)) (lastRTCCenter (frameCtx s))
  = true ->
  List.length (uniformTable this')
    < List.length (sectionPlanes (_sectionPlanesState scene)) ->
  completionOf r = Throw TypeError /\
  issuesDraw (callsOf r) = false /\
  sectionPlaneWrites (callsOf r) = reloadWrites scene layer (uniformTable this') /\
  frameCtx (stateOf r) = frameCtxAfter p layer (frameCtx s).
Proof.
  intros He this' p r Hreload Hshort. subst r.
  rewrite (drawLayer_outcome scene compiled layer s He).
  fold this' p. cbv zeta. rewrite Hreload.
  set (s2 := mkSt this' (frameCtxAfter p layer (frameCtx s))).
  set (pre := (if programIdDiffers _ _ then _ else _) ++ _).
  assert (Hpre : issuesDraw pre = false /\ sectionPlaneWrites pre = [])
    by (subst pre; destruct (programIdDiffers _ _); split; reflexivity).
  destruct Hpre as [Hpre1 Hpre2].
  pose proof (drawLayer_loadSectionPlanes_completes_iff scene layer true s2)
    as Hiff.
  pose proof (drawLayer_loadSectionPlanes_calls scene layer s2) as Hcalls.
  destruct (drawLayer_loadSectionPlanes_inv scene layer true s2) as [_ Hall].
  change (this s2) with this' in Hiff, Hcalls.
  destruct (drawLayer_loadSectionPlanes scene layer true s2) as [[c1 s3] pc].
  unfold completionOf, callsOf in Hiff, Hcalls, Hall.
  cbn [fst snd] in Hiff, Hcalls, Hall.
  destruct c1 as [[]|[]].
  - exfalso. destruct Hiff as [Hiff _]. specialize (Hiff eq_refl eq_refl). lia.
  - unfold completionOf, callsOf, stateOf. cbn [fst snd frameCtx].
    destruct (sectionPlaneWrites_only pc Hall) as (P1 & _ & _ & _ & P5).
    split; [reflexivity|]. split; [|split; [|reflexivity]].
    + unfold issuesDraw in *. rewrite existsb_app, Hpre1, P5. reflexivity.
    + unfold sectionPlaneWrites in *. rewrite filter_app, Hpre2, P1.
      exact Hcalls.
Qed.

(** Errors are never cleared.  No method resets [errors]; so once a
    compilation has failed, every later [drawLayer] call that has to
    allocate returns without a single GL call, even when the new
    compilation succeeds.  The program it compiled stays in [_program]. *)
Theorem drawLayer_skips_after_recovery (scene : Scene)
    (compiled : Program.t) (layer : BatchingLayer) (s : St)
    (errs : list string) :
  errors (this s) = Some errs ->
  _program (this s) = None ->
  let r := drawLayer scene compiled layer s in
  completionOf r = Normal tt /\
  callsOf r = [] /\
  errors (this (stateOf r)) <> None /\
  _program (this (stateOf r)) = Some compiled /\
  frameCtx (stateOf r) = frameCtx s.
Proof.
  intros Herr Hp r.
  assert (Ha : errors (_allocate scene compiled (this s)) <> None).
  { unfold _allocate. destruct (Program.errors compiled); simpl;
      [discriminate | rewrite Herr; discriminate]. }
  assert (He : returnsEarly scene compiled (this s) = true).
  { unfold returnsEarly. rewrite Hp.
    destruct (errors (_allocate scene compiled (this s)));
      [reflexivity | congruence]. }
  subst r. rewrite (drawLayer_early scene compiled layer s He).
  unfold completionOf, callsOf, stateOf. cbn [fst snd this frameCtx].
  repeat split; auto.
  unfold _allocate. destruct (Program.errors compiled); reflexivity.
Qed.

(** Validity is fixed at construction.  Neither [drawLayer] (with the
    allocation it may run), nor [webglContextRestored()], nor [destroy()]
    changes what [getValid()] answers for any scene. *)
Theorem getValid_unchanged_by_methods (scene scene' : Scene)
    (compiled : Program.t) (layer : BatchingLayer) (s : St) :
  getValid scene' (this (stateOf (drawLayer scene compiled layer s)))
    = getValid scene' (this s) /\
  getValid scene' (webglContextRestored (this s)) = getValid scene' (this s) /\
  getValid scene' (this (stateOf (destroy s))) = getValid scene' (this s).
Proof.
  unfold getValid.
  assert (Hh : _hash (this (stateOf (drawLayer scene compiled layer s)))
               = _hash (this s)).
  { destruct (returnsEarly scene compiled (this s)) eqn:He.
    - rewrite (drawLayer_early scene compiled layer s He).
      apply _allocate_keeps_hash.
    - destruct (drawLayer_anatomy scene compiled layer s He) as [Hst _].
      rewrite Hst. cbn [this]. unfold thisAfterGuard.
      destruct (_program (this s)); [reflexivity|].
      apply _allocate_keeps_hash. }
  rewrite Hh. split; [reflexivity|]. split; [reflexivity|].
  destruct s as [r fc]. unfold destroy, bind, getThis, modifyThis, stateOf.
  simpl. destruct (_program r); reflexivity.
Qed.

(** The section-plane writes of any call that passes the guard, whether
    it ends or throws. *)
Lemma drawLayer_sectionPlaneWrites (scene : Scene) (compiled : Program.t)
    (layer : BatchingLayer) (s : St) :
  returnsEarly scene compiled (this s) = false ->
  let this' := thisAfterGuard scene compiled (this s) in
  let p := programInUse compiled (this s) in
  sectionPlaneWrites (callsOf (drawLayer scene compiled layer s)) =
  if programIdDiffers (lastProgramId (frameCtx s)) (Program.id p)
     || rtcCenterDiffers (rtcCenter (_state layer))
          (lastRTCCenter (frameCtx s))
  then reloadWrites scene layer (uniformTable this') else [].
Proof.
  intros He this' p.
  rewrite (drawLayer_outcome scene compiled layer s He).
  fold this' p. cbv zeta.
  set (s2 := mkSt this' (frameCtxAfter p layer (frameCtx s))).
  set (pre := (if programIdDiffers _ _ then _ else _) ++ _).
  assert (Hpre : sectionPlaneWrites pre = [])
    by (subst pre; destruct (programIdDiffers _ _); reflexivity).
  set (load := programIdDiffers _ _ || rtcCenterDiffers _ _).
  assert (Hpc : sectionPlaneWrites
                  (callsOf (drawLayer_loadSectionPlanes scene layer load s2))
                = if load then reloadWrites scene layer (uniformTable this')
                  else []).
  { destruct (drawLayer_loadSectionPlanes_inv scene layer load s2)
      as [_ Hall].
    destruct (sectionPlaneWrites_only _ Hall) as (P1 & _). rewrite P1.
    destruct load; [apply drawLayer_loadSectionPlanes_calls | reflexivity]. }
  destruct (drawLayer_bindAndDraw_cases layer s2) as (_ & _ & T2 & _).
  destruct (drawLayer_loadSectionPlanes scene layer load s2) as [[c1 s3] pc].
  destruct (drawLayer_bindAndDraw layer s2) as [[c s4] tc].
  unfold callsOf in *. cbn [snd] in *.
  unfold sectionPlaneWrites in *.
  destruct c1 as [[]|e]; cbn [snd]; rewrite !filter_app, Hpre, Hpc, ?T2,
    ?app_nil_r; reflexivity.
Qed.

(** Two layers with the same center, one after the other.  When the test
    [compareVec3] applies to components is reflexive, drawing a second
    layer with the same RTC center (or both without one) right after a
    first one, with the same renderer, binds no program, writes no
    section-plane uniform and leaves the frame context as the first draw
    left it. *)
Theorem second_draw_with_same_center_elides (scene : Scene)
    (compiledA compiledB : Program.t) (layerA layerB : BatchingLayer)
    (s : St) (p : Program.t) :
  (forall x, numEq x x = true) ->
  _program (this s) = Some p ->
  rtcCenter (_state layerA) = rtcCenter (_state layerB) ->
  let rA := drawLayer scene compiledA layerA s in
  let rB := drawLayer scene compiledB layerB (stateOf rA) in
  countProgramBinds (callsOf rB) = 0 /\
  sectionPlaneWrites (callsOf rB) = [] /\
  frameCtx (stateOf rB) = frameCtx (stateOf rA).
Proof.
  intros Hrefl Hp Hc rA rB.
  assert (Hcmp : forall v, compareVec3 v v = true).
  { intros [[x y] z]. unfold compareVec3. rewrite !Hrefl. reflexivity. }
  destruct (returnsEarly_with_program scene compiledA (this s) p Hp)
    as (He & Ht & Hu).
  destruct (drawLayer_digest scene compiledA layerA s He) as (Hst & _).
  fold rA in Hst. rewrite Ht, Hu in Hst.
  assert (HpA : _program (this (stateOf rA)) = Some p)
    by (rewrite Hst; exact Hp).
  destruct (returnsEarly_with_program scene compiledB _ p HpA)
    as (He' & Ht' & Hu').
  destruct (drawLayer_digest scene compiledB layerB (stateOf rA) He')
    as (Hst' & Hb' & _ & Hskip & _).
  fold rB in Hst', Hb', Hskip. rewrite Hu' in Hst', Hb', Hskip.
  assert (Hb : programIdDiffers (lastProgramId (frameCtx (stateOf rA)))
                 (Program.id p) = false)
    by (apply programIdDiffers_false; rewrite Hst; reflexivity).
  assert (Hd : rtcCenterDiffers (rtcCenter (_state layerB))
                 (lastRTCCenter (frameCtx (stateOf rA))) = false).
  { rewrite Hst, <- Hc. unfold frameCtxAfter. cbn [frameCtx lastRTCCenter].
    destruct (rtcCenter (_state layerA)) as [c|],
             (lastRTCCenter (frameCtx s)) as [l|]; simpl; auto.
    - destruct (compareVec3 c l) eqn:E; simpl; [rewrite E|rewrite Hcmp];
        reflexivity.
    - rewrite Hcmp. reflexivity. }
  rewrite Hb in Hb', Hskip. rewrite Hd in Hskip.
  split; [unfold countProgramBinds; rewrite Hb'; reflexivity|].
  split; [apply Hskip; reflexivity|].
  rewrite Hst'. cbn [frameCtx]. unfold frameCtxAfter. rewrite Hd.
  rewrite Hst. reflexivity.
Qed.

(** A center that is not equal to itself defeats the elision.  When
    [compareVec3] does not find a layer's RTC center equal to itself (a
    NaN component) nor to the center the frame context holds, drawing
    that layer again right after it was drawn reloads all section-plane
    uniforms again. *)
Theorem self_unequal_center_reloads_every_draw (scene : Scene)
    (compiledA compiledB : Program.t) (layer : BatchingLayer)
    (s : St) (p : Program.t) (c : vec3) :
  _program (this s) = Some p ->
  rtcCenter (_state layer) = Some c ->
  compareVec3 c c = false ->
  (forall l, lastRTCCenter (frameCtx s) = Some l -> compareVec3 c l = false) ->
  let rA := drawLayer scene compiledA layer s in
  let rB := drawLayer scene compiledB layer (stateOf rA) in
  sectionPlaneWrites (callsOf rB)
    = reloadWrites scene layer (uniformTable (this s)).
Proof.
  intros Hp Hc Hne Hlast rA rB.
  destruct (returnsEarly_with_program scene compiledA (this s) p Hp)
    as (He & Ht & Hu).
  destruct (drawLayer_digest scene compiledA layer s He) as (Hst & _).
  fold rA in Hst. rewrite Ht, Hu in Hst.
  assert (HpA : _program (this (stateOf rA)) = Some p)
    by (rewrite Hst; exact Hp).
  destruct (returnsEarly_with_program scene compiledB _ p HpA)
    as (He' & Ht' & Hu').
  subst rB.
  rewrite (drawLayer_sectionPlaneWrites scene compiledB layer (stateOf rA) He').
  rewrite Ht', Hu'.
  assert (Hd : rtcCenterDiffers (rtcCenter (_state layer))
                 (lastRTCCenter (frameCtx (stateOf rA))) = true).
  { rewrite Hst. unfold frameCtxAfter. cbn [frameCtx lastRTCCenter].
    rewrite Hc. destruct (lastRTCCenter (frameCtx s)) as [l|]; simpl.
    - rewrite (Hlast l eq_refl). simpl. rewrite Hne. reflexivity.
    - rewrite Hne. reflexivity. }
  rewrite Hd, orb_true_r. rewrite Hst. reflexivity.
Qed.

Lemma flat_map_combine_map_seq {B C D : Type} (f : nat -> B)
    (g : nat * B * C -> list D) (l : list C) (k i : nat) :
  flat_map g (combine (combine (seq i k) (map f (seq i k))) l)
  = flat_map (fun e : nat * C => g (fst e, f (fst e), snd e))
      (combine (seq i k) l).
Proof.
  revert i l. induction k as [|k IH]; intros i l; [reflexivity|].
  destruct l as [|x l]; [reflexivity|].
  cbn [seq map combine flat_map fst snd]. rewrite IH. reflexivity.
Qed.

(** Plane [i] goes to the uniforms named after [i].  The first draw of a
    frame with a renderer constructed for the scene (its compilation
    succeeded) writes, for the planes of the scene in their order, the
    flag of plane [i] to the location of [sectionPlaneActive<i>] and, when
    the plane is active, its position to [sectionPlanePos<i>] and its
    direction to [sectionPlaneDir<i>]. *)
Theorem first_draw_writes_named_plane_uniforms (scene : Scene)
    (compiled compiled' : Program.t) (layer : BatchingLayer)
    (last : option vec3) :
  Program.errors compiled = None ->
  let planes := sectionPlanes (_sectionPlanesState scene) in
  let r :=
    drawLayer scene compiled' layer
      (mkSt (constructor scene compiled) (mkFrameCtx None last)) in
  sectionPlaneWrites (callsOf r) =
  flat_map
    (fun e : nat * SectionPlane =>
       let '(i, plane) := e in
       let active :=
         nth (layerIndex layer * List.length planes + i)
             (sectionPlanesActivePerLayer (model layer)) false in
       if active then
         [ Uniform1i
             (Program.getLocation compiled (indexed "sectionPlaneActive" i)) 1;
           Uniform3fv
             (Program.getLocation compiled (indexed "sectionPlanePos" i))
             (match rtcCenter (_state layer) with
              | Some c => getPlaneRTCPos (dist plane) (dir plane) c
              | None => pos plane
              end);
           Uniform3fv
             (Program.getLocation compiled (indexed "sectionPlaneDir" i))
             (dir plane) ]
       else
         [ Uniform1i
             (Program.getLocation compiled (indexed "sectionPlaneActive" i)) 0 ])
    (combine (seq 0 (List.length planes)) planes).
Proof.
  intros He planes r.
  assert (Hp : _program (constructor scene compiled) = Some compiled).
  { unfold constructor, _allocate. rewrite He. reflexivity. }
  destruct (returnsEarly_with_program scene compiled'
              (constructor scene compiled) compiled Hp) as (Hearly & Hthis & _).
  subst r.
  rewrite (drawLayer_sectionPlaneWrites scene compiled' layer
             (mkSt (constructor scene compiled) (mkFrameCtx None last)) Hearly).
  cbn [this frameCtx lastProgramId programIdDiffers orb]. rewrite Hthis.
  unfold reloadWrites. fold planes.
  assert (Ht : uniformTable (constructor scene compiled) =
               map (fun i =>
                      mkSectionPlaneUniforms
                        (Program.getLocation compiled
                           (indexed "sectionPlaneActive" i))
                        (Program.getLocation compiled
                           (indexed "sectionPlanePos" i))
                        (Program.getLocation compiled
                           (indexed "sectionPlaneDir" i)))
                   (seq 0 (List.length planes))).
  { unfold constructor, _allocate, uniformTable. rewrite He. reflexivity. }
  rewrite Ht, flat_map_combine_map_seq.
  apply flat_map_ext. intros [i plane]. cbn [fst snd].
  unfold planeWrites, planeActive. fold planes. cbn [uActive uPos uDir].
  destruct (nth _ _ false); reflexivity.
Qed.

(** [destroy()] is safe to repeat.  It never throws, leaves the renderer
    without a program, destroys the program it held (if any) exactly once,
    and a second [destroy()] does nothing at all. *)
Theorem destroy_is_idempotent (s : St) :
  let r := destroy s in
  let r2 := destroy (stateOf r) in
  completionOf r = Normal tt /\
  _program (this (stateOf r)) = None /\
  callsOf r =
    match _program (this s) with
    | Some p => [ProgramDestroy (Program.id p)]
    | None => []
    end /\
  completionOf r2 = Normal tt /\ callsOf r2 = [] /\ stateOf r2 = stateOf r.
Proof.
  destruct s as [r fc].
  unfold destroy, bind, getThis, modifyThis, completionOf, callsOf, stateOf.
  simpl. destruct (_program r); simpl; repeat split; reflexivity.
Qed.

(** Reallocation after a context loss.  After [webglContextRestored()],
    the next [drawLayer] of a renderer without recorded errors whose new
    compilation succeeds installs the new program, takes its attribute
    handles and one uniform entry per section plane of the scene as it is
    now from it, records the new program's id in the frame context, and
    binds it unless the frame context already held that id. *)
Theorem drawLayer_reallocates_after_context_restore (scene : Scene)
    (compiled : Program.t) (layer : BatchingLayer) (r0 : Renderer)
    (fc : FrameCtx) :
  errors r0 = None ->
  Program.errors compiled = None ->
  let r := drawLayer scene compiled layer (mkSt (webglContextRestored r0) fc) in
  let r' := this (stateOf r) in
  _program r' = Some compiled /\
  List.length (uniformTable r')
    = List.length (sectionPlanes (_sectionPlanesState scene)) /\
  _aPosition r' = Program.getAttribute compiled "position" /\
  _aFlags r' = Program.getAttribute compiled "flags" /\
  lastProgramId (frameCtx (stateOf r)) = Some (Program.id compiled) /\
  filter isProgramBind (callsOf r)
    = (if programIdDiffers (lastProgramId fc) (Program.id compiled)
       then [ProgramBind (Program.id compiled)] else []).
Proof.
  intros Herr He r r'.
  destruct (_allocate_success scene compiled (webglContextRestored r0) He)
    as (A1 & A2 & _ & A4 & A5 & A6).
  assert (Hearly : returnsEarly scene compiled
                     (this (mkSt (webglContextRestored r0) fc)) = false).
  { unfold returnsEarly. cbn [this webglContextRestored setProgram _program].
    change (mkRenderer (_hash r0) None (errors r0) (_uPositionsDecodeMatrix r0)
              (_uViewMatrix r0) (_uProjMatrix r0) (_uSectionPlanes r0)
              (_aPosition r0) (_aOffset r0) (_aColor r0) (_aFlags r0)
              (_aFlags2 r0))
      with (webglContextRestored r0).
    rewrite A2. cbn [webglContextRestored setProgram errors].
    rewrite Herr. reflexivity. }
  destruct (drawLayer_digest scene compiled layer _ Hearly) as (Hst & Hb & _).
  fold r in Hst, Hb. subst r'. rewrite Hst.
  cbn [this frameCtx] in *. unfold thisAfterGuard, programInUse in *.
  cbn [webglContextRestored setProgram _program] in *.
  unfold frameCtxAfter. cbn [lastProgramId].
  repeat split; assumption || reflexivity.
Qed.

(** Uniform names do not collide: the names built from one prefix for two
    different plane indices are different. *)
Theorem indexed_names_differ (name : string) (i j : nat) :
  i <> j -> indexed name i <> indexed name j.
Proof.
  intros Hij H. apply Hij. unfold indexed in H.
  assert (Happ : forall a b c : string,
             (a ++ b)%string = (a ++ c)%string -> b = c).
  { induction a as [|ch a IH]; intros b c Hbc; simpl in Hbc;
      [exact Hbc | injection Hbc as Hbc; apply IH; exact Hbc]. }
  apply Happ in H.
  apply Unsigned.to_uint_inj.
  assert (Hs : Some (Nat.to_uint i) = Some (Nat.to_uint j)).
  { rewrite <- (NilEmpty.usu (Nat.to_uint i)), <- (NilEmpty.usu (Nat.to_uint j)).
    rewrite H. reflexivity. }
  congruence.
Qed.

(** Drawing does not touch a renderer that holds a program: [drawLayer]
    changes the fields of the renderer only when it allocates. *)
Theorem drawLayer_keeps_renderer (scene : Scene) (compiled : Program.t)
    (layer : BatchingLayer) (s : St) (p : Program.t) :
  _program (this s) = Some p ->
  this (stateOf (drawLayer scene compiled layer s)) = this s.
Proof.
  intros Hp.
  destruct (returnsEarly_with_program scene compiled (this s) p Hp)
    as (He & Ht & _).
  destruct (drawLayer_anatomy scene compiled layer s He) as [Hst _].
  rewrite Hst. exact Ht.
Qed.

End RendererBehaviour.

(** * Further behaviour of the Ortho projection *)

Section OrthoBehaviour.

Import Ortho.

(** Writing back what the getter returns changes nothing: assigning the
    stored scale to [scale] again stores the same scale, whatever was
    assigned before. *)
Theorem set_scale_get_round_trip (value : JsValue) (o : t) :
  let o' := set_scale value o in
  _scale (set_scale (JsNumber (_scale o')) o') = _scale o'.
Proof.
  unfold set_scale. cbn [_scale].
  destruct value as [| |v]; try reflexivity.
  destruct (leb v zero) eqn:E; [reflexivity|].
  rewrite E. reflexivity.
Qed.

(** The invariant kept by a chain of assignments. *)
Lemma assignAll_invariant (l : list Assignment) (o : t) :
  positive (_scale o) ->
  _updateScheduled o = true ->
  Forall (fun ev => fst ev = "scale"%string -> positive (snd ev)) (fired o) ->
  Forall (fun a => a <> AssignScale (JsNumber NaN)) l ->
  positive (_scale (assignAll l o)) /\
  _updateScheduled (assignAll l o) = true /\
  Forall (fun ev => fst ev = "scale"%string -> positive (snd ev))
    (fired (assignAll l o)) /\
  List.length (fired (assignAll l o))
    = (List.length (fired o) + List.length l)%nat.
Proof.
  revert o. induction l as [|a l IH]; intros o Hp Hu Hf Hl.
  - cbn. rewrite Nat.add_0_r. auto.
  - inversion Hl as [|a' l' Ha Hl']; subst.
    unfold assignAll in *. cbn [fold_left].
    assert (Hstep : positive (_scale (assign o a)) /\
                    _updateScheduled (assign o a) = true /\
                    Forall (fun ev => fst ev = "scale"%string ->
                                      positive (snd ev))
                      (fired (assign o a)) /\
                    List.length (fired (assign o a))
                      = S (List.length (fired o))).
    { destruct a as [v|v|v]; cbn [assign].
      - assert (Hv : v <> JsNumber NaN) by congruence.
        pose proof (set_scale_positive v o Hv) as Hpos.
        split; [exact Hpos|]. split; [reflexivity|].
        unfold set_scale in *. cbn [_scale fired] in *.
        split; [|rewrite length_app; simpl; lia].
        apply Forall_app. split; [exact Hf|].
        constructor; [intros _; exact Hpos | constructor].
      - unfold set_near. cbn [_scale _updateScheduled fired].
        split; [exact Hp|]. split; [reflexivity|].
        split; [|rewrite length_app; simpl; lia].
        apply Forall_app. split; [exact Hf|].
        constructor; [cbn [fst]; discriminate | constructor].
      - unfold set_far. cbn [_scale _updateScheduled fired].
        split; [exact Hp|]. split; [reflexivity|].
        split; [|rewrite length_app; simpl; lia].
        apply Forall_app. split; [exact Hf|].
        constructor; [cbn [fst]; discriminate | constructor]. }
    destruct Hstep as (S1 & S2 & S3 & S4).
    destruct (IH (assign o a) S1 S2 S3 Hl') as (I1 & I2 & I3 & I4).
    repeat split; auto. rewrite I4, S4. cbn [List.length]. lia.
Qed.

(** The scale stays positive.  After [init] and any chain of assignments
    to [scale], [near] and [far] in which [scale] is never assigned NaN,
    the stored scale is strictly positive, an update is scheduled, every
    [scale] event fired so far carried a strictly positive value, and one
    event was fired per assignment (three by [init]). *)
Theorem scale_stays_positive (cfg : Cfg) (l : list Assignment) :
  cfg_scale cfg <> JsNumber NaN ->
  Forall (fun a => a <> AssignScale (JsNumber NaN)) l ->
  let o := assignAll l (init cfg) in
  positive (_scale o) /\
  _updateScheduled o = true /\
  Forall (fun ev => fst ev = "scale"%string -> positive (snd ev)) (fired o) /\
  List.length (fired o) = (3 + List.length l)%nat.
Proof.
  intros Hc Hl o. subst o.
  change (init cfg)
    with (assignAll [AssignScale (cfg_scale cfg); AssignNear (cfg_near cfg);
                     AssignFar (cfg_far cfg)]
            (mk NaN NaN NaN false [])).
  set (o1 := set_scale (cfg_scale cfg) (mk NaN NaN NaN false [])).
  assert (H1 : positive (_scale o1)) by (apply set_scale_positive; exact Hc).
  assert (Hinit :
    let o0 := assignAll [AssignNear (cfg_near cfg); AssignFar (cfg_far cfg)] o1 in
    positive (_scale o0) /\ _updateScheduled o0 = true /\
    Forall (fun ev => fst ev = "scale"%string -> positive (snd ev)) (fired o0) /\
    List.length (fired o0) = 3%nat).
  { apply (assignAll_invariant
             [AssignNear (cfg_near cfg); AssignFar (cfg_far cfg)] o1).
    - exact H1.
    - reflexivity.
    - subst o1. unfold set_scale in *. cbn [fired app _scale] in *.
      constructor; [intros _; exact H1 | constructor].
    - repeat constructor; discriminate. }
  cbv zeta in Hinit. destruct Hinit as (J1 & J2 & J3 & J4).
  change (assignAll [AssignScale (cfg_scale cfg); AssignNear (cfg_near cfg);
                     AssignFar (cfg_far cfg)] (mk NaN NaN NaN false []))
    with (assignAll [AssignNear (cfg_near cfg); AssignFar (cfg_far cfg)] o1).
  destruct (assignAll_invariant l _ J1 J2 J3 Hl) as (K1 & K2 & K3 & K4).
  rewrite J4 in K4. auto.
Qed.

(** A number other than NaN is equal to itself. *)
Lemma same_refl (v : Number) : v <> NaN -> same v v.
Proof.
  intros Hn. unfold same, SpecFloat.SFeqb.
  destruct v as [s|s| |s m e].
  - reflexivity.
  - destruct s; reflexivity.
  - exfalso. apply Hn. reflexivity.
  - cbn [SpecFloat.SFcompare].
    destruct s; rewrite Z.compare_refl, Pos.compare_cont_refl; reflexivity.
Qed.

(** Near and far are not checked against each other.  Assigning the same
    number (other than NaN) to [near] and to [far] is accepted as it is,
    and the frustum [_update] then computes is degenerate, whatever the
    scale and the viewport. *)
Theorem equal_near_and_far_give_degenerate_frustum (v : Number) (o : t)
    (boundary : Number * Number * Number * Number) :
  v <> NaN ->
  let o' := set_far (JsNumber v) (set_near (JsNumber v) o) in
  _near o' = v /\ _far o' = v /\
  _scale o' = _scale o /\
  degenerate (_update boundary o').
Proof.
  intros Hn. cbv zeta. split; [reflexivity|]. split; [reflexivity|].
  split; [reflexivity|].
  right. right. unfold _update.
  destruct boundary as [[[bx by_] w] h].
  destruct (gtb w h); cbn [near far set_far set_near _near _far];
    apply same_refl; exact Hn.
Qed.

End OrthoBehaviour.

(** ** Further behaviour, on concrete inputs *)

Section RendererBehaviourRuns.

Import Sample.
#[local] Existing Instance zMath.

Lemma drawLayer_completes_iff_witness :
  returnsEarly scene2 (compiledProgram 9) (this start2) = false /\
  completionOf drawA = Normal tt.
Proof.
  split; [reflexivity|].
  destruct (drawLayer_completes_iff scene2 (compiledProgram 9) layerA start2
              eq_refl) as [[_ H] _].
  apply H. split; [intros _; vm_compute; repeat constructor|].
  split; discriminate.
Defined.

Lemma drawLayer_call_sequence_witness :
  issuesDraw (callsOf drawA) = true /\
  exists aPosition aFlags,
    _aPosition (this start2) = Some aPosition /\
    _aFlags (this start2) = Some aFlags /\
    callsOf drawA =
      [ ProgramBind 1;
        UniformMatrix4fv (Some 418) false [3; 0; 0; 3; 10; 0; 0]%Z;
        UniformMatrix4fv (Some 176) false [1; 0; 0; 1]%Z;
        Uniform1i (Some 287) 1;
        Uniform3fv (Some 785) (-5, 0, 0)%Z;
        Uniform3fv (Some 404) (1, 0, 0)%Z;
        Uniform1i (Some 288) 0;
        UniformMatrix4fv (Some 277) false [2; 0; 0; 2]%Z;
        BindArrayBuffer aPosition 10;
        BindArrayBuffer 2 12;
        BindArrayBuffer aFlags 13;
        IndicesBind (mkIndicesBuf 15 36 23);
        DrawElements 4 36 23 0 ].
Proof.
  split; [reflexivity|].
  exact (drawLayer_call_sequence scene2 (compiledProgram 9) layerA start2
           eq_refl).
Defined.

Lemma valid_renderer_draws_witness :
  (Program.errors (compiledProgram 1) = None /\
   Program.getAttribute (compiledProgram 1) "position" <> None /\
   Program.getAttribute (compiledProgram 1) "flags" <> None /\
   getValid scene2 (constructor scene2 (compiledProgram 1)) = true) /\
  completionOf drawA = Normal tt /\
  issuesDraw (callsOf drawA) = true /\
  this (stateOf drawA) = constructor scene2 (compiledProgram 1).
Proof.
  split; [repeat split; try reflexivity; discriminate|].
  apply (valid_renderer_draws scene2 scene2 (compiledProgram 1)
           (compiledProgram 9) layerA freshFrame);
    try reflexivity; discriminate.
Defined.

(** A renderer built for one plane, drawing a scene that has two. *)
Lemma drawLayer_throws_on_short_uniform_table_witness :
  (returnsEarly scene2 (compiledProgram 9) renderer1 = false /\
   List.length (uniformTable renderer1)
     < List.length (sectionPlanes (_sectionPlanesState scene2))) /\
  completionOf (drawLayer scene2 (compiledProgram 9) layerA
                  (mkSt renderer1 freshFrame)) = Throw TypeError /\
  sectionPlaneWrites
    (callsOf (drawLayer scene2 (compiledProgram 9) layerA
                (mkSt renderer1 freshFrame)))
  = [ Uniform1i (Some 287) 1;
      Uniform3fv (Some 785) (-5, 0, 0)%Z;
      Uniform3fv (Some 404) (1, 0, 0)%Z ].
Proof.
  split; [split; [reflexivity | vm_compute; repeat constructor]|].
  destruct (drawLayer_throws_on_short_uniform_table scene2 (compiledProgram 9)
              layerA (mkSt renderer1 freshFrame))
    as (H1 & _ & H3 & _).
  - reflexivity.
  - reflexivity.
  - vm_compute. repeat constructor.
  - split; [exact H1 | exact H3].
Defined.

(** The compilation succeeds again, yet the recorded errors make the call
    return at once. *)
Lemma drawLayer_skips_after_recovery_witness :
  (errors (this recovering) = Some ["Vertex shader failed to allocate"%string]
   /\ _program (this recovering) = None
   /\ Program.errors (compiledProgram 3) = None) /\
  callsOf (drawLayer scene0 (compiledProgram 3) layerW recovering) = [].
Proof.
  split; [repeat split; reflexivity|].
  apply (drawLayer_skips_after_recovery scene0 (compiledProgram 3) layerW
           recovering ["Vertex shader failed to allocate"%string]);
    reflexivity.
Defined.

Lemma second_draw_with_same_center_elides_witness :
  (_program (this start2) = Some (compiledProgram 1) /\
   rtcCenter (_state layerA) = rtcCenter (_state layerB)) /\
  countProgramBinds (callsOf drawB) = 0 /\
  sectionPlaneWrites (callsOf drawB) = [] /\
  frameCtx (stateOf drawB) = frameCtx (stateOf drawA).
Proof.
  split; [split; reflexivity|].
  apply (second_draw_with_same_center_elides scene2 (compiledProgram 9)
           (compiledProgram 9) layerA layerB start2 (compiledProgram 1)).
  - intros x. apply Z.eqb_refl.
  - reflexivity.
  - reflexivity.
Defined.

Lemma first_draw_writes_named_plane_uniforms_witness :
  Program.errors (compiledProgram 1) = None /\
  sectionPlaneWrites (callsOf drawA) =
    [ Uniform1i
        (Program.getLocation (compiledProgram 1) "sectionPlaneActive0") 1;
      Uniform3fv
        (Program.getLocation (compiledProgram 1) "sectionPlanePos0")
        (-5, 0, 0)%Z;
      Uniform3fv
        (Program.getLocation (compiledProgram 1) "sectionPlaneDir0")
        (1, 0, 0)%Z;
      Uniform1i
        (Program.getLocation (compiledProgram 1) "sectionPlaneActive1") 0 ].
Proof.
  split; [reflexivity|].
  apply (first_draw_writes_named_plane_uniforms scene2 (compiledProgram 1)
           (compiledProgram 9) layerA None).
  reflexivity.
Defined.

(** The context is restored in the middle of a frame that had program 1
    bound: the next draw compiles program 7 and binds it. *)
Lemma drawLayer_reallocates_after_context_restore_witness :
  (errors renderer2 = None /\ Program.errors (compiledProgram 7) = None) /\
  filter isProgramBind
    (callsOf (drawLayer scene2 (compiledProgram 7) layerB
                (mkSt (webglContextRestored renderer2)
                      (frameCtx (stateOf drawA)))))
  = [ProgramBind 7].
Proof.
  split; [split; reflexivity|].
  apply (drawLayer_reallocates_after_context_restore scene2
           (compiledProgram 7) layerB renderer2 (frameCtx (stateOf drawA)));
    reflexivity.
Defined.

Lemma indexed_names_differ_witness :
  0 <> 1 /\
  indexed "sectionPlaneActive" 0 <> indexed "sectionPlaneActive" 1.
Proof.
  split; [discriminate|].
  apply (indexed_names_differ "sectionPlaneActive" 0 1). discriminate.
Defined.

Lemma drawLayer_keeps_renderer_witness :
  _program (this start2) = Some (compiledProgram 1) /\
  this (stateOf drawA) = this start2.
Proof.
  split; [reflexivity|].
  apply (drawLayer_keeps_renderer scene2 (compiledProgram 9) layerA start2
           (compiledProgram 1)).
  reflexivity.
Defined.

End RendererBehaviourRuns.

Section RendererBehaviourNaNRuns.

Import SampleNaN.
#[local] Existing Instance nMath.

(** A layer whose center has a NaN component, drawn twice: the second draw
    reloads the plane again. *)
Lemma self_unequal_center_reloads_every_draw_witness :
  (_program (this start) = Some (Sample.compiledProgram 1) /\
   compareVec3 nanCenter nanCenter = false) /\
  sectionPlaneWrites
    (callsOf (drawLayer scene (Sample.compiledProgram 9) layer
                (stateOf (drawLayer scene (Sample.compiledProgram 9) layer
                            start))))
  = [ Uniform1i (Some 287) 1;
      Uniform3fv (Some 785) nanCenter;
      Uniform3fv (Some 404) (Some 1, Some 0, Some 0)%Z ].
Proof.
  split; [split; reflexivity|].
  apply (self_unequal_center_reloads_every_draw scene
           (Sample.compiledProgram 9) (Sample.compiledProgram 9) layer start
           (Sample.compiledProgram 1) nanCenter).
  - reflexivity.
  - reflexivity.
  - reflexivity.
  - intros l Hl. discriminate Hl.
Defined.

End RendererBehaviourNaNRuns.

Section OrthoBehaviourRuns.

Import Ortho.

Lemma scale_stays_positive_witness :
  (cfg_scale (mkCfg JsUndefined JsUndefined JsUndefined) <> JsNumber NaN /\
   Forall (fun a => a <> AssignScale (JsNumber NaN))
     [ AssignScale (JsNumber (ofZ (-2))); AssignNear JsNull;
       AssignFar (JsNumber NaN) ]) /\
  let o :=
    assignAll
      [ AssignScale (JsNumber (ofZ (-2))); AssignNear JsNull;
        AssignFar (JsNumber NaN) ]
      (init (mkCfg JsUndefined JsUndefined JsUndefined)) in
  positive (_scale o) /\
  _updateScheduled o = true /\
  Forall (fun ev => fst ev = "scale"%string -> positive (snd ev)) (fired o) /\
  List.length (fired o) = 6%nat.
Proof.
  assert (H1 : cfg_scale (mkCfg JsUndefined JsUndefined JsUndefined)
               <> JsNumber NaN) by discriminate.
  assert (H2 : Forall (fun a => a <> AssignScale (JsNumber NaN))
                 [ AssignScale (JsNumber (ofZ (-2))); AssignNear JsNull;
                   AssignFar (JsNumber NaN) ]).
  { repeat constructor; discriminate. }
  split; [split; [exact H1 | exact H2]|].
  apply (scale_stays_positive (mkCfg JsUndefined JsUndefined JsUndefined)
           [ AssignScale (JsNumber (ofZ (-2))); AssignNear JsNull;
             AssignFar (JsNumber NaN) ] H1 H2).
Defined.

(** Near and far both set to 5, on the default Ortho. *)
Lemma equal_near_and_far_give_degenerate_frustum_witness :
  ofZ 5 <> NaN /\
  degenerate
    (_update (zero, zero, ofZ 800, ofZ 600)
       (set_far (JsNumber (ofZ 5))
          (set_near (JsNumber (ofZ 5))
             (init (mkCfg JsUndefined JsUndefined JsUndefined))))).
Proof.
  assert (Hn : ofZ 5 <> NaN) by discriminate.
  split; [exact Hn|].
  apply (equal_near_and_far_give_degenerate_frustum (ofZ 5)
           (init (mkCfg JsUndefined JsUndefined JsUndefined))
           (zero, zero, ofZ 800, ofZ 600) Hn).
Defined.

End OrthoBehaviourRuns.
